(** * Bate-papo UOL API: a shallow embedding of the request handlers

    The repository holds two Express applications over the same MongoDB
    collections: [src/src/app.js] (the chat API with sanitised inputs) and
    an unnamed sibling file (the chat API without sanitisation, followed by
    the recipe endpoints).  Each handler is embedded as a function from the
    database state and the request to the new state and the reply.

    Conventions of the embedding:
    - a JavaScript string is a [string] of code units below 256;
    - a collection is the list of its documents in insertion order, which
      is the order [find().toArray()] yields;
    - a request body is a JSON object, [req.query.limit] and the [user]
      header are a string or absent;
    - [Date.now()] is an input of the handler ([Z], milliseconds);
    - store operations succeed: the [catch] branches that answer 500 on a
      driver failure are reached only through [new ObjectId(id)];
    - every handler runs to completion before the next one starts. *)

From stdpp Require Import base option list gmap strings.
From Stdlib Require Import ZArith Ascii.
From Stdlib Require DecimalString DecimalNat DecimalFacts.

Set Warnings "-register-all,-clear-no-such-hyp".

(** ** JavaScript built-ins used by the handlers *)
Module Js.

(** White space removed by [String.prototype.trim] and skipped by
    [parseInt], among the code units below 256. *)
Definition is_white_space (a : ascii) : bool :=
  match a with
  | "009" | "010" | "011" | "012" | "013" | " " | "160" => true
  | _ => false
  end%char.

Fixpoint trimStart (s : string) : string :=
  match s with
  | "" => ""
  | String a r => if is_white_space a then trimStart r else s
  end.

Definition trimEnd (s : string) : string :=
  String.rev (trimStart (String.rev s)).

Definition trim (s : string) : string := trimEnd (trimStart s).

(** Value of a digit in the given radix (10 or 16). *)
Definition digit_value (radix : Z) (a : ascii) : option Z :=
  let n := Z.of_N (N_of_ascii a) in
  let v :=
    if (48 <=? n)%Z && (n <=? 57)%Z then Some (n - 48)%Z
    else if (97 <=? n)%Z && (n <=? 102)%Z then Some (n - 87)%Z
    else if (65 <=? n)%Z && (n <=? 70)%Z then Some (n - 55)%Z
    else None in
  match v with
  | Some d => if (d <? radix)%Z then Some d else None
  | None => None
  end.

(** Longest prefix of digits, accumulated left to right; [None] when the
    prefix is empty. *)
Fixpoint parse_digits (radix : Z) (acc : option Z) (s : string) : option Z :=
  match s with
  | "" => acc
  | String a r =>
      match digit_value radix a with
      | Some d => parse_digits radix (Some (radix * default 0%Z acc + d)%Z) r
      | None => acc
      end
  end.

Definition strip_sign (s : string) : Z * string :=
  match s with
  | String "-" r => ((-1)%Z, r)
  | String "+" r => (1%Z, r)
  | _ => (1%Z, s)
  end.

Definition strip_radix_prefix (s : string) : Z * string :=
  match s with
  | String "0" (String "x" r) => (16%Z, r)
  | String "0" (String "X" r) => (16%Z, r)
  | _ => (10%Z, s)
  end.

(** [parseInt(s)] with no radix argument; [None] is NaN.  The result is
    the exact integer: the rounding of values above 2^53 is not modelled
    (the handlers only pass the result to [slice], which clamps it). *)
Definition parseInt (s : string) : option Z :=
  let '(sign, s1) := strip_sign (trimStart s) in
  let '(radix, s2) := strip_radix_prefix s1 in
  (fun m => sign * m)%Z <$> parse_digits radix None s2.

(** [parseInt(undefined)] parses the string "undefined". *)
Definition parseInt_opt (q : option string) : option Z :=
  parseInt (default "undefined" q).


(** [a.slice(-k)] for [k > 0]: the last [k] elements, all of them when
    the array is shorter. *)
Definition slice_last {A} (k : Z) (a : list A) : list A :=
  drop (length a - Z.to_nat k) a.

End Js.

(** ** Documents and queries of the store *)
Module Mongo.

(** JSON values, as [express.json()] delivers them and as the driver
    stores them.  Numbers are integers: no handler inspects a numeric
    field of a request body. *)
Inductive json : Type :=
| JNull
| JBool (b : bool)
| JNum (n : Z)
| JStr (s : string)
| JArr (l : list json)
| JObj (l : list (string * json)).

Definition is_str (s : string) (v : json) : bool :=
  match v with
  | JStr s' => bool_decide (s' = s)
  | _ => false
  end.

(** The query [{field: s}] for a string [s]: the field holds [s], or
    holds an array with [s] among its elements. *)
Definition field_eq (v : option json) (s : string) : bool :=
  match v with
  | Some (JArr l) => existsb (is_str s) l
  | Some w => is_str s w
  | None => false
  end.

Definition ObjectId := N.

(** A stored document: the [_id] given at insertion and the fields. *)
Record document := Document {
  _id : ObjectId;
  fields : gmap string json
}.

Record participant := Participant {
  name : string;
  lastStatus : Z
}.

(** The three collections, and the source of fresh [_id]s.  The [_id]
    of a participant is not kept: no handler reads it. *)
Record db := Db {
  participants : list participant;
  messages : list document;
  receitas : list document;
  next_id : ObjectId
}.

Arguments Document _id%_N fields.
Arguments Db participants messages receitas next_id%_N.

(** [collection.findOne({name})] on participants. *)
Definition findOne_name (n : string) (ps : list participant)
  : option participant :=
  List.find (fun p => bool_decide (name p = n)) ps.

(** [collection.findOne({_id})]. *)
Definition findOne_id (i : ObjectId) (ds : list document) : option document :=
  List.find (fun d => bool_decide (_id d = i)) ds.

(** [collection.updateOne({_id}, {$set: upd})]: the first document with
    that [_id] gets the fields of [upd], the others of its fields stay. *)
Fixpoint updateOne_id (i : ObjectId) (upd : gmap string json)
    (ds : list document) : list document :=
  match ds with
  | [] => []
  | d :: r =>
      if bool_decide (_id d = i)
      then Document (_id d) (upd ∪ fields d) :: r
      else d :: updateOne_id i upd r
  end.

(** [collection.deleteOne({_id})]. *)
Fixpoint deleteOne_id (i : ObjectId) (ds : list document) : list document :=
  match ds with
  | [] => []
  | d :: r => if bool_decide (_id d = i) then r else d :: deleteOne_id i r
  end.

(** [collection.updateOne({name}, {$set: {lastStatus}})]; the second
    component is [matchedCount]. *)
Fixpoint updateOne_lastStatus (n : string) (t : Z) (ps : list participant)
  : list participant * nat :=
  match ps with
  | [] => ([], 0)
  | p :: r =>
      if bool_decide (name p = n) then (Participant (name p) t :: r, 1)
      else let '(r', c) := updateOne_lastStatus n t r in (p :: r', c)
  end.

(** [messages.insertOne(fs)]. *)
Definition insert_message (fs : gmap string json) (s : db) : db :=
  Db (participants s) (messages s ++ [Document (next_id s) fs])
     (receitas s) (N.succ (next_id s)).

(** [participants.insertOne(p)]. *)
Definition insert_participant (p : participant) (s : db) : db :=
  Db (participants s ++ [p]) (messages s) (receitas s) (next_id s).

End Mongo.

(** ** The part of Joi the schemas use *)
Module Joi.
Import Mongo.

Inductive rule : Type :=
| string_required                    (* Joi.string().required() *)
| required                           (* Joi.required() *)
| valid_required (vs : list string)  (* Joi.valid(...).required() *)
| allow (vs : list string).          (* Joi.allow(...) *)

(** A key passes its rule.  [Joi.string()] rejects the empty string;
    [Joi.allow] only adds to the accepted values of a schema that accepts
    every value already, and leaves the key optional. *)
Definition rule_ok (r : rule) (v : option json) : bool :=
  match r, v with
  | string_required, Some (JStr s) => negb (bool_decide (s = ""))
  | string_required, _ => false
  | required, Some _ => true
  | required, None => false
  | valid_required vs, Some (JStr s) => bool_decide (s ∈ vs)
  | valid_required _, _ => false
  | allow _, _ => true
  end.

(** [Joi.object(schema).validate(o, {abortEarly: false}).error] is absent:
    every key of the schema passes and [o] has no other key. *)
Definition validate (schema : list (string * rule)) (o : gmap string json)
  : bool :=
  forallb (λ kr, rule_ok kr.2 (o !! kr.1)) schema
  && bool_decide (dom o ⊆@{gset string} list_to_set schema.*1).

End Joi.

(** ** Requests, replies and the imported packages *)
Module Http.
Import Mongo.

Inductive reply : Type :=
| sendStatus (code : Z)                    (* res.sendStatus(code) *)
| send_string (code : Z) (s : string)      (* res.status(code).send(text) *)
| send_details (code : Z)                  (* res.status(422).send(errors) *)
| send_error (code : Z)                    (* res.status(500).send(err.message) *)
| send_documents (ds : list document)      (* res.send(array) *)
| send_participants (ps : list participant)
| uncaught.   (* an exception leaves the handler: no reply is sent *)

Definition status (r : reply) : option Z :=
  match r with
  | sendStatus c | send_string c _ | send_details c | send_error c => Some c
  | send_documents _ | send_participants _ => Some 200%Z
  | uncaught => None
  end.

(** The packages the handlers call and whose code is not part of the
    repository. *)
Class Externals := {
  (** [stripHtml(s).result] of string-strip-html *)
  stripHtml : string → string;
  (** [dayjs(t).format("HH:mm:ss")] *)
  dayjs_format : Z → string;
  (** [new ObjectId(id)]; [None] when the constructor throws *)
  ObjectId_new : string → option ObjectId
}.

End Http.

(** ** [src/src/app.js] *)
Module App.
Import Mongo Http.

Section handlers.
Context `{Externals}.

(** [stripHtml(s).result.trim()] *)
Definition sanitize (s : string) : string := Js.trim (stripHtml s).

(** [stripHtml(v)] on a field of the body: it throws unless [v] is a
    string. *)
Definition sanitize_field (v : option json) : option string :=
  match v with
  | Some (JStr s) => Some (sanitize s)
  | _ => None
  end.

Definition schemaParticipant : list (string * Joi.rule) :=
  [("name", Joi.string_required)].

Definition schemaMessage : list (string * Joi.rule) :=
  [("from", Joi.required);
   ("to", Joi.string_required);
   ("text", Joi.string_required);
   ("type", Joi.valid_required ["message"; "private_message"])].

(** The message of a join or of a leave. *)
Definition status_message (from text : string) (t : Z) : gmap string json :=
  {[ "from" := JStr from; "to" := JStr "Todos"; "text" := JStr text;
     "type" := JStr "status"; "time" := JStr (dayjs_format t) ]}.

(** POST /participants; [t1] and [t2] are the two readings of
    [Date.now()]. *)
Definition post_participants (t1 t2 : Z) (body : gmap string json) (s : db)
  : db * reply :=
  if negb (Joi.validate schemaParticipant body) then (s, sendStatus 422)
  else
    match sanitize_field (body !! "name") with
    | None => (s, uncaught)
    | Some name =>
        match findOne_name name (participants s) with
        | Some _ => (s, sendStatus 409)
        | None =>
            let s1 := insert_participant (Participant name t1) s in
            let s2 :=
              insert_message (status_message name "entra na sala..." t2) s1 in
            (s2, sendStatus 201)
        end
    end.

(** GET /participants *)
Definition get_participants (s : db) : db * reply :=
  (s, send_participants (participants s)).

(** [{ from: name, to: ..., text: ..., type: ... }] of POST and PUT
    /messages; [None] when a [stripHtml] throws. *)
Definition sanitizedParams (name : string) (body : gmap string json)
  : option (gmap string json) :=
  to ← sanitize_field (body !! "to");
  text ← sanitize_field (body !! "text");
  type ← sanitize_field (body !! "type");
  Some ({[ "from" := JStr name; "to" := JStr to; "text" := JStr text;
           "type" := JStr type ]} : gmap string json).

(** POST /messages *)
Definition post_messages (t : Z) (user : option string)
    (body : gmap string json) (s : db) : db * reply :=
  match user with
  | None => (s, sendStatus 422)
  | Some user =>
      let name := sanitize user in
      match findOne_name name (participants s) with
      | None => (s, sendStatus 422)
      | Some _ =>
          if negb (Joi.validate schemaMessage
                     (body ∪ {[ "from" := JStr user ]}))
          then (s, sendStatus 422)
          else
            match sanitizedParams name body with
            | None => (s, send_error 500)
            | Some params =>
                let message := <[ "time" := JStr (dayjs_format t) ]> params in
                (insert_message message s, sendStatus 201)
            end
      end
  end.

(** The filter of GET /messages, for the header value [user]. *)
Definition visible (user : string) (d : document) : bool :=
  let f := fields d in
  field_eq (f !! "type") "message"
  || field_eq (f !! "to") "Todos"
  || (field_eq (f !! "type") "private_message"
      && (field_eq (f !! "to") user || field_eq (f !! "from") user)).

(** GET /messages; [limit] is [req.query.limit]. *)
Definition get_messages (user : option string) (limit : option string)
    (s : db) : db * reply :=
  match user with
  | None => (s, uncaught)
  | Some user =>
      let name := sanitize user in
      match findOne_name name (participants s) with
      | None => (s, sendStatus 409)
      | Some _ =>
          let messages := List.filter (visible user) (messages s) in
          match limit with
          | None => (s, send_documents (rev messages))
          | Some limit =>
              match Js.parseInt limit with
              | None => (s, sendStatus 422)
              | Some limitValue =>
                  if (limitValue <=? 0)%Z then (s, sendStatus 422)
                  else (s, send_documents
                             (rev (Js.slice_last limitValue messages)))
              end
          end
      end
  end.

(** POST /status *)
Definition post_status (t : Z) (user : option string) (s : db) : db * reply :=
  match user with
  | None => (s, sendStatus 404)
  | Some user =>
      let name := sanitize user in
      let '(ps, matchedCount) :=
        updateOne_lastStatus name t (participants s) in
      if bool_decide (matchedCount = 0) then (s, sendStatus 404)
      else (Db ps (messages s) (receitas s) (next_id s), sendStatus 200)
  end.

Definition inactive (now : Z) (p : participant) : bool :=
  (lastStatus p <? now - 10000)%Z.

(** The timer task; [now] is its reading of [Date.now()].  The
    [insertOne] calls of the loop are taken in the order the loop issues
    them. *)
Definition removeInactiveParticipants (now : Z) (s : db) : db :=
  let participants_ := List.filter (inactive now) (participants s) in
  if (length participants_ <=? 0)%nat then s
  else
    let s1 :=
      Db (List.filter (λ p, negb (inactive now p)) (participants s))
         (messages s) (receitas s) (next_id s) in
    foldl (λ acc participant,
             insert_message
               (status_message (name participant) "sai da sala..." now) acc)
          s1 participants_.

(** DELETE /messages/:id *)
Definition delete_message (id : string) (user : option string) (s : db)
  : db * reply :=
  match user with
  | None => (s, uncaught)
  | Some user =>
      let name := sanitize user in
      match ObjectId_new id with
      | None => (s, send_error 500)
      | Some oid =>
          match findOne_id oid (messages s) with
          | None => (s, sendStatus 404)
          | Some message =>
              if negb (is_str name (default JNull (fields message !! "from")))
              then (s, sendStatus 401)
              else (Db (participants s) (deleteOne_id oid (messages s))
                       (receitas s) (next_id s), sendStatus 200)
          end
      end
  end.

(** PUT /messages/:id *)
Definition put_message (id : string) (user : option string)
    (body : gmap string json) (s : db) : db * reply :=
  match user with
  | None => (s, uncaught)
  | Some user =>
      let name := sanitize user in
      match findOne_name name (participants s) with
      | None => (s, sendStatus 422)
      | Some _ =>
          if negb (Joi.validate schemaMessage
                     (body ∪ {[ "from" := JStr name ]}))
          then (s, sendStatus 422)
          else
            match sanitizedParams name body with
            | None => (s, send_error 500)
            | Some params =>
                match ObjectId_new id with
                | None => (s, send_error 500)
                | Some oid =>
                    match findOne_id oid (messages s) with
                    | None => (s, sendStatus 404)
                    | Some message =>
                        if negb (is_str user
                                   (default JNull (fields message !! "from")))
                        then (s, sendStatus 401)
                        else (Db (participants s)
                                 (updateOne_id oid params (messages s))
                                 (receitas s) (next_id s), sendStatus 200)
                    end
                end
            end
      end
  end.

End handlers.
End App.

(** ** The unnamed sibling file: no sanitisation, and the recipes *)
Module Part000.
Import Mongo Http.

Section handlers.
Context `{Externals}.

Definition schemaParticipant : list (string * Joi.rule) :=
  [("name", Joi.string_required)].

Definition schemaMessage : list (string * Joi.rule) :=
  [("to", Joi.string_required);
   ("text", Joi.string_required);
   ("type", Joi.allow ["message"; "private_message"]);
   ("from", Joi.required)].

(** POST /participants: [name] is [req.body.name] as received. *)
Definition post_participants (t1 t2 : Z) (body : gmap string json) (s : db)
  : db * reply :=
  if negb (Joi.validate schemaParticipant body) then (s, send_details 422)
  else
    match body !! "name" with
    | Some (JStr name) =>
        match findOne_name name (participants s) with
        | Some _ => (s, send_string 409 "Participant already exist!")
        | None =>
            let s1 := insert_participant (Participant name t1) s in
            let message : gmap string json :=
              {[ "from" := JStr name; "to" := JStr "Todos";
                 "text" := JStr "entra na sala..."; "type" := JStr "status";
                 "time" := JStr (dayjs_format t2) ]} in
            (insert_message message s1, sendStatus 201)
        end
    | _ => (s, send_details 422)  (* excluded by the validation *)
    end.

(** [findOne({ name: user })]: an absent header matches no participant. *)
Definition findOne_user (user : option string) (ps : list participant)
  : option participant :=
  user ≫= λ u, findOne_name u ps.

(** POST /messages: the stored message is
    [{ from: user, ...req.body, time }], so a key of the body replaces
    the [from] written before the spread. *)
Definition post_messages (t : Z) (user : option string)
    (body : gmap string json) (s : db) : db * reply :=
  match user, findOne_user user (participants s) with
  | Some user, Some _ =>
      if negb (Joi.validate schemaMessage (<[ "from" := JStr user ]> body))
      then (s, send_details 422)
      else
        let message :=
          <[ "time" := JStr (dayjs_format t) ]>
            (body ∪ {[ "from" := JStr user ]}) in
        (insert_message message s, sendStatus 201)
  | _, _ => (s, send_string 409 "Participant do not exist!")
  end.

Definition visible (user : string) (d : document) : bool :=
  let f := fields d in
  field_eq (f !! "type") "message"
  || field_eq (f !! "to") "Todos"
  || (field_eq (f !! "type") "private_message"
      && (field_eq (f !! "to") user || field_eq (f !! "from") user)).

(** GET /messages.  [limit] is [parseInt(req.query.limit)], a number even
    when the query has no limit, so the test [limit === undefined] never
    holds; NaN passes [typeof limit !== "number"], and [slice(-NaN)] is the
    whole array.  The reply modelled is the one sent by the first [try];
    the statements after it throw once it is sent. *)
Definition get_messages (user : option string) (limit : option string)
    (s : db) : db * reply :=
  match user, findOne_user user (participants s) with
  | Some user, Some _ =>
      let messages := List.filter (visible user) (messages s) in
      match Js.parseInt_opt limit with
      | None => (s, send_documents (rev messages))
      | Some limit =>
          if (limit <=? 0)%Z then (s, sendStatus 422)
          else (s, send_documents (rev (Js.slice_last limit messages)))
      end
  | _, _ => (s, send_string 409 "Participant do not exist!")
  end.

(** The query [{ ingredientes: filtroIngredientes }]. *)
Definition ingredientes_match (filtroIngredientes : string) (d : document)
  : bool :=
  field_eq (fields d !! "ingredientes") filtroIngredientes.

(** DELETE /receitas/muitas/:filtroIngredientes *)
Definition delete_receitas_muitas (filtroIngredientes : string) (s : db)
  : db * reply :=
  (Db (participants s) (messages s)
      (List.filter (λ d, negb (ingredientes_match filtroIngredientes d))
                   (receitas s))
      (next_id s),
   sendStatus 204).

(** The word "não" of the two recipe replies, its second letter being the
    code unit 227. *)
Definition nao : string := String "n" (String "227" (String "o" "")).

(** DELETE /receitas/:id; the 404 is the case [deletedCount === 0]. *)
Definition delete_receita (id : string) (s : db) : db * reply :=
  match ObjectId_new id with
  | None => (s, send_error 500)
  | Some oid =>
      match findOne_id oid (receitas s) with
      | None => (s, send_string 404 ("Essa receita " +:+ nao +:+ " existe!"))
      | Some _ =>
          (Db (participants s) (messages s) (deleteOne_id oid (receitas s))
              (next_id s),
           send_string 204 "Receita deletada com sucesso!")
      end
  end.

(** A key of [req.body] put in an update: a missing key is [undefined],
    which the driver stores as null. *)
Definition body_value (body : gmap string json) (k : string) : json :=
  default JNull (body !! k).

(** PUT /receitas/:id; the 404 is the case [matchedCount === 0]. *)
Definition put_receita (id : string) (body : gmap string json) (s : db)
  : db * reply :=
  match ObjectId_new id with
  | None => (s, send_error 500)
  | Some oid =>
      match findOne_id oid (receitas s) with
      | None => (s, send_string 404 ("esse item " +:+ nao +:+ " existe!"))
      | Some _ =>
          (Db (participants s) (messages s)
              (updateOne_id oid
                 {[ "titulo" := body_value body "titulo";
                    "preparo" := body_value body "preparo";
                    "ingredientes" := body_value body "ingredientes" ]}
                 (receitas s))
              (next_id s),
           send_string 200 "Receita atualizada!")
      end
  end.

End handlers.
End Part000.

(** ** Reference packages for the worked requests

    A concrete [Externals] on which the handlers can be run: tags
    [<...>] are deleted (what string-strip-html does to the markup of the
    requests below), times are printed in UTC, and an [ObjectId] is read
    from 24 hexadecimal digits. *)
Module Reference.
Import Mongo Http.

Fixpoint strip_tags (in_tag : bool) (s : string) : string :=
  match s with
  | "" => ""
  | String a r =>
      if in_tag then strip_tags (negb (bool_decide (a = ">"%char))) r
      else if bool_decide (a = "<"%char) then strip_tags true r
      else String a (strip_tags false r)
  end.

Definition two_digits (n : Z) : string :=
  String (ascii_of_N (Z.to_N (48 + n / 10)))
    (String (ascii_of_N (Z.to_N (48 + n mod 10))) "").

Definition format_utc (t : Z) : string :=
  let secs := (t / 1000)%Z in
  two_digits ((secs / 3600) mod 24) +:+ ":" +:+
  two_digits ((secs / 60) mod 60) +:+ ":" +:+
  two_digits (secs mod 60).

Definition is_hex (a : ascii) : bool :=
  bool_decide (is_Some (Js.digit_value 16 a)).

Definition hex_ObjectId (id : string) : option ObjectId :=
  if bool_decide (String.length id = 24)
     && forallb is_hex (String.list_ascii_of_string id)
  then Z.to_N <$> Js.parse_digits 16 None id
  else None.

Definition packages : Externals := {|
  stripHtml := strip_tags false;
  dayjs_format := format_utc;
  ObjectId_new := hex_ObjectId
|}.

(** Objects of the worked requests. *)
Definition join_body (n : string) : gmap string json :=
  {[ "name" := JStr n ]}.

Definition message_body (to text type : string) : gmap string json :=
  {[ "to" := JStr to; "text" := JStr text; "type" := JStr type ]}.

Definition stored (from to text type time : string) : gmap string json :=
  {[ "from" := JStr from; "to" := JStr to; "text" := JStr text;
     "type" := JStr type; "time" := JStr time ]}.

(** Runs of the handlers, every clock reading being 0. *)
Definition empty : db := Db [] [] [] 0.

Definition app_join (n : string) (s : db) : db :=
  (@App.post_participants packages 0 0 (join_body n) s).1.

Definition app_post (user : string) (body : gmap string json) (s : db) : db :=
  (@App.post_messages packages 0 (Some user) body s).1.

Definition part000_join (n : string) (s : db) : db :=
  (@Part000.post_participants packages 0 0 (join_body n) s).1.

Definition part000_post (user : string) (body : gmap string json) (s : db)
  : db :=
  (@Part000.post_messages packages 0 (Some user) body s).1.

(** Ana, Todos, Bob and Carla join through [app.js]; Ana writes privately
    to "Todos" and to Bob, Bob writes to everybody. *)
Definition room : db :=
  app_post "Bob" (message_body "Todos" "oi" "message")
    (app_post "Ana" (message_body "Bob" "so para o Bob" "private_message")
       (app_post "Ana" (message_body "Todos" "segredo" "private_message")
          (app_join "Carla"
             (app_join "Bob" (app_join "Todos" (app_join "Ana" empty)))))).

Definition joined (n : string) : gmap string json :=
  stored n "Todos" "entra na sala..." "status" "00:00:00".

Definition departed (n : string) : gmap string json :=
  stored n "Todos" "sai da sala..." "status" "00:00:20".

(** A body that carries a [from] of its own. *)
Definition forged_body : gmap string json :=
  <[ "from" := JStr "Bob" ]> (message_body "Todos" "oi" "message").

(** Ana alone, joined through the sibling file. *)
Definition part000_ana : db := part000_join "Ana" empty.

(** Ana alone, joined through [app.js], after a private message to
    "Todos". *)
Definition ana_alone : db :=
  app_post "Ana" (message_body "Todos" "segredo" "private_message")
    (app_join "Ana" empty).

(** A participant joins and writes through the sibling file under a name
    with markup, then "Ana" joins through [app.js]. *)
Definition mixed : db :=
  app_join "Ana"
    (part000_post "<b>Ana</b>" (message_body "Todos" "oi" "message")
       (part000_join "<b>Ana</b>" empty)).

(** Two participants, one of them silent for 20 seconds at time 20000. *)
Definition two_participants : db :=
  Db [Participant "Ana" 0; Participant "Bob" 15000] [] [] 0.

(** Three recipes. *)
Definition recipe (titulo preparo ingredientes : string) : gmap string json :=
  {[ "titulo" := JStr titulo; "preparo" := JStr preparo;
     "ingredientes" := JStr ingredientes ]}.

Definition kitchen : db :=
  Db [] []
     [Document 0 (recipe "omelete" "bater" "ovo");
      Document 1 (recipe "bolo" "assar" "ovo, leite");
      Document 2 (recipe "gemada" "mexer" "ovo")] 3.

(** [kitchen] after PUT /receitas/:id has given recipe 1 a list of
    ingredients. *)
Definition pantry : db :=
  (@Part000.put_receita packages "000000000000000000000001"
     {[ "titulo" := JStr "bolo"; "preparo" := JStr "assar";
        "ingredientes" := JArr [JStr "ovo"; JStr "leite"] ]} kitchen).1.

End Reference.

(** * Properties *)

(** ** Built-ins on sample inputs *)
Example parseInt_samples :
  Js.parseInt "3" = Some 3%Z ∧ Js.parseInt "  42px" = Some 42%Z ∧
  Js.parseInt "2.5" = Some 2%Z ∧ Js.parseInt "-7" = Some (-7)%Z ∧
  Js.parseInt "0x1f" = Some 31%Z ∧ Js.parseInt "abc" = None ∧
  Js.parseInt "" = None ∧ Js.parseInt "0" = Some 0%Z ∧
  Js.parseInt_opt None = None.
Proof. repeat split; reflexivity. Qed.

Example trim_samples :
  Js.trim "  Ana " = "Ana" ∧ Js.trim "Ana" = "Ana" ∧ Js.trim "   " = "" ∧
  @App.sanitize Reference.packages "<b>Ana</b>" = "Ana" ∧
  @App.sanitize Reference.packages " a<i> b</i>c " = "a bc".
Proof. repeat split; reflexivity. Qed.

Example reference_samples :
  Reference.format_utc 3723004 = "01:02:03" ∧
  Reference.hex_ObjectId "00000000000000000000000a" = Some 10%N ∧
  Reference.hex_ObjectId "xyz" = None.
Proof. repeat split; reflexivity. Qed.

(** ** [parseInt] on decimal numerals *)
Section numerals.





End numerals.

(** ** The store operations *)
Section store_lemmas.
Import Mongo.

Lemma findOne_name_is_Some (n : string) (ps : list participant) :
  is_Some (findOne_name n ps) ↔ n ∈ name <$> ps.
Proof.
  unfold findOne_name. induction ps as [|p ps IH]; simpl.
  - split; [intros [? [=]] | intros Hin; inversion Hin].
  - rewrite elem_of_cons. case_bool_decide as Hp.
    + split; [intros _; left; congruence | eauto].
    + rewrite IH. split; [tauto | intros [->|?]]; [congruence | done].
Qed.

Lemma findOne_name_None (n : string) (ps : list participant) :
  findOne_name n ps = None ↔ n ∉ name <$> ps.
Proof.
  rewrite <- findOne_name_is_Some, eq_None_not_Some. tauto.
Qed.

Lemma findOne_name_inserted (n : string) (t : Z) (ps : list participant) :
  is_Some (findOne_name n (ps ++ [Participant n t])).
Proof.
  apply findOne_name_is_Some. rewrite fmap_app, elem_of_app.
  right. simpl. apply list_elem_of_singleton. done.
Qed.

(** A run of [insertOne] calls appends one document per element, with
    consecutive fresh [_id]s. *)
Lemma foldl_insert_message {A} (f : A → gmap string json) (l : list A) (s : db) :
  foldl (λ acc x, insert_message (f x) acc) s l
  = Db (participants s)
       (messages s
        ++ imap (λ i x, Document (next_id s + N.of_nat i)%N (f x)) l)
       (receitas s) (next_id s + N.of_nat (length l))%N.
Proof.
  revert s. induction l as [|x l IH]; intros s; simpl.
  - rewrite app_nil_r, N.add_0_r. by destruct s.
  - rewrite IH. unfold insert_message; simpl.
    rewrite <- app_assoc. simpl. rewrite N.add_0_r. f_equal.
    + do 2 f_equal. apply imap_ext. intros i y _. simpl. f_equal. lia.
    + lia.
Qed.

End store_lemmas.

(** ** The presence sweep *)
Section sweep.
Import Mongo Http.
Context `{Externals}.

Lemma filter_elem_of {A} (f : A → bool) (l : list A) (x : A) :
  x ∈ List.filter f l ↔ x ∈ l ∧ f x = true.
Proof. rewrite !list_elem_of_In. apply filter_In. Qed.

Lemma filter_nil_none {A} (f : A → bool) (l : list A) :
  List.filter f l = [] ↔ ∀ x, x ∈ l → f x = false.
Proof.
  induction l as [|a l IH]; simpl.
  - split; [intros _ x Hx; inversion Hx | done].
  - destruct (f a) eqn:Hfa.
    + split; [done | intros Hall]. specialize (Hall a). rewrite Hfa in Hall.
      discriminate Hall. left.
    + rewrite IH. split.
      * intros Hall x [->|Hx]%elem_of_cons; auto.
      * intros Hall x Hx. apply Hall. by right.
Qed.

(** C3. One run of the sweep with [cutoff = now - 10000]: when no
    participant has [lastStatus < cutoff] the store is left as it is;
    otherwise the participants with [lastStatus < cutoff] are deleted, the
    others stay (in order), and for each participant of the fetched
    snapshot one message [{from: name, to: "Todos", text: "sai da sala...",
    type: "status", time: format(now)}] is appended. *)
Theorem C3_presence_sweep (now : Z) (s : db) :
  let cutoff := (now - 10000)%Z in
  let s' := App.removeInactiveParticipants now s in
  let snapshot :=
    List.filter (λ p, (lastStatus p <? cutoff)%Z) (participants s) in
  ((∀ p, p ∈ participants s → ¬ (lastStatus p < cutoff)%Z) → s' = s)
  ∧ ((∃ p, p ∈ participants s ∧ (lastStatus p < cutoff)%Z) →
     (∀ p, (lastStatus p < cutoff)%Z → p ∉ participants s')
     ∧ (∀ p, p ∈ participants s → (cutoff ≤ lastStatus p)%Z →
             p ∈ participants s')
     ∧ participants s'
       = List.filter (λ p, (cutoff <=? lastStatus p)%Z) (participants s)
     ∧ messages s'
       = messages s
         ++ imap (λ i p,
                    Document (next_id s + N.of_nat i)%N
                      {[ "from" := JStr (name p); "to" := JStr "Todos";
                         "text" := JStr "sai da sala...";
                         "type" := JStr "status";
                         "time" := JStr (dayjs_format now) ]})
                 snapshot
     ∧ receitas s' = receitas s).
Proof.
  intros cutoff s' snapshot. subst s'.
  unfold App.removeInactiveParticipants, App.inactive. fold cutoff.
  fold snapshot. split.
  - intros Hnone.
    assert (snapshot = []) as ->; [|done].
    apply filter_nil_none. intros p Hp. apply Z.ltb_ge.
    specialize (Hnone p Hp). lia.
  - intros (p & Hp & Hlt).
    assert (p ∈ snapshot) as Hsnap.
    { apply filter_elem_of. split; [done | by apply Z.ltb_lt]. }
    destruct snapshot as [|q snapshot'] eqn:Hq; [inversion Hsnap|].
    change (length (q :: snapshot') <=? 0)%nat with false. cbv iota.
    rewrite foldl_insert_message. simpl participants. simpl messages.
    simpl receitas. simpl next_id.
    assert (List.filter (λ p0, negb (lastStatus p0 <? cutoff)%Z) (participants s)
            = List.filter (λ p0, (cutoff <=? lastStatus p0)%Z) (participants s))
      as ->.
    { apply List.filter_ext. intros a.
      destruct (Z.ltb_spec (lastStatus a) cutoff), (Z.leb_spec cutoff (lastStatus a));
        simpl; done || lia. }
    repeat split.
    + intros p0 Hp0 [_ Hin]%filter_elem_of. apply Z.leb_le in Hin. lia.
    + intros p0 Hin Hge. apply filter_elem_of. split; [done | by apply Z.leb_le].
Qed.

End sweep.

(** ** Joining *)
Section join.
Import Mongo Http.
Context `{Externals}.

(** The participant schema accepts exactly the bodies [{name: raw}] with
    [raw] a non-empty string. *)
Lemma validate_schemaParticipant (body : gmap string json) :
  Joi.validate App.schemaParticipant body = true
  ↔ ∃ raw, raw ≠ "" ∧ body = {[ "name" := JStr raw ]}.
Proof.
  unfold Joi.validate, App.schemaParticipant. simpl.
  rewrite !andb_true_iff, bool_decide_eq_true. split.
  - intros [[Hname _] Hdom].
    destruct (body !! "name") as [[| | |raw| |]|] eqn:Hb; try discriminate.
    exists raw. split.
    + intros ->. discriminate Hname.
    + apply map_eq. intros k. destruct (decide (k = "name")) as [->|Hk].
      * by rewrite lookup_singleton_eq.
      * rewrite lookup_singleton_ne by done.
        apply not_elem_of_dom. intros Hin%Hdom.
        apply elem_of_union in Hin as [Hin%elem_of_singleton|Hin]; [done|].
        by apply not_elem_of_empty in Hin.
  - intros (raw & Hraw & ->). rewrite lookup_singleton_eq. simpl.
    rewrite bool_decide_eq_false_2 by done. split; [done|].
    rewrite dom_singleton_L. set_solver.
Qed.

Lemma part000_schemaParticipant :
  Part000.schemaParticipant = App.schemaParticipant.
Proof. reflexivity. Qed.

(** C5. A join whose name is taken answers 409 and leaves every
    collection as it was, in both files ([app.js] looks the sanitised name
    up, the sibling file the name as received); a join with a valid, free
    name answers 201, and the same join repeated answers 409. *)
Theorem C5_join_conflict (t1 t2 t3 t4 : Z) (raw : string) (s : db) :
  raw ≠ "" →
  let body : gmap string json := {[ "name" := JStr raw ]} in
  (App.sanitize raw ∈ name <$> participants s →
     App.post_participants t1 t2 body s = (s, sendStatus 409))
  ∧ (raw ∈ name <$> participants s →
     Part000.post_participants t1 t2 body s
     = (s, send_string 409 "Participant already exist!"))
  ∧ (App.sanitize raw ∉ name <$> participants s →
     ∃ s1, App.post_participants t1 t2 body s = (s1, sendStatus 201)
           ∧ App.post_participants t3 t4 body s1 = (s1, sendStatus 409))
  ∧ (raw ∉ name <$> participants s →
     ∃ s1, Part000.post_participants t1 t2 body s = (s1, sendStatus 201)
           ∧ Part000.post_participants t3 t4 body s1
             = (s1, send_string 409 "Participant already exist!")).
Proof.
  intros Hraw body.
  assert (Joi.validate App.schemaParticipant body = true) as Hval.
  { apply validate_schemaParticipant. by exists raw. }
  unfold App.post_participants, Part000.post_participants.
  rewrite part000_schemaParticipant, Hval. subst body.
  rewrite lookup_singleton_eq. simpl.
  repeat split.
  - intros [p Hp]%findOne_name_is_Some. by rewrite Hp.
  - intros [p Hp]%findOne_name_is_Some. by rewrite Hp.
  - intros Hfree%findOne_name_None. rewrite Hfree. eexists. split; [done|].
    simpl.
    destruct (findOne_name_inserted (App.sanitize raw) t1 (participants s))
      as [p Hp].
    by rewrite Hp.
  - intros Hfree%findOne_name_None. rewrite Hfree. eexists. split; [done|].
    simpl.
    destruct (findOne_name_inserted raw t1 (participants s)) as [p Hp].
    by rewrite Hp.
Qed.

(** A join answered 201 by [app.js] appends the participant named by the
    request's name with markup stripped and white space trimmed, and one
    message with [from] that name, [to] "Todos" and [type] "status"; the
    sibling file does the same with the name as received. *)
Lemma join_stores (t1 t2 : Z) (body : gmap string json) (s s' : db) :
  (App.post_participants t1 t2 body s = (s', sendStatus 201) →
   ∃ raw, body !! "name" = Some (JStr raw)
     ∧ participants s'
       = participants s ++ [Participant (Js.trim (stripHtml raw)) t1]
     ∧ messages s'
       = messages s
         ++ [Document (next_id s)
               {[ "from" := JStr (Js.trim (stripHtml raw));
                  "to" := JStr "Todos"; "text" := JStr "entra na sala...";
                  "type" := JStr "status";
                  "time" := JStr (dayjs_format t2) ]}])
  ∧ (Part000.post_participants t1 t2 body s = (s', sendStatus 201) →
     ∃ raw, body !! "name" = Some (JStr raw)
       ∧ participants s' = participants s ++ [Participant raw t1]
       ∧ messages s'
         = messages s
           ++ [Document (next_id s)
                 {[ "from" := JStr raw;
                    "to" := JStr "Todos"; "text" := JStr "entra na sala...";
                    "type" := JStr "status";
                    "time" := JStr (dayjs_format t2) ]}]).
Proof.
  unfold App.post_participants, Part000.post_participants.
  rewrite part000_schemaParticipant.
  destruct (Joi.validate App.schemaParticipant body) eqn:Hval; simpl;
    [|split; intros [=]].
  apply validate_schemaParticipant in Hval as (raw & _ & ->).
  rewrite lookup_singleton_eq. simpl. split.
  - destruct (findOne_name _ _); intros [= <-]. by exists raw.
  - destruct (findOne_name _ _); intros [= <-]. by exists raw.
Qed.

End join.

(** ** Posting messages *)
Section post.
Import Mongo Http.
Context `{Externals}.

(** Inclusion of key sets from an inclusion [Hdom], element by element. *)
Ltac subset_from Hdom :=
  let x := fresh "x" in
  intros x; specialize (Hdom x); set_unfold; naive_solver.

Lemma lookup_with_from (body : gmap string json) (v : json) (k : string) :
  k ≠ "from" → (body ∪ {[ "from" := v ]}) !! k = body !! k.
Proof.
  intros Hk. rewrite lookup_union, lookup_singleton_ne by done.
  by destruct (body !! k).
Qed.

Lemma lookup_from_is_Some (body : gmap string json) (v : json) :
  is_Some ((body ∪ {[ "from" := v ]}) !! "from").
Proof.
  rewrite lookup_union, lookup_singleton_eq.
  destruct (body !! "from"); simpl; eauto.
Qed.

Lemma dom_with_from (body : gmap string json) (v : json) :
  dom (body ∪ {[ "from" := v ]}) = dom body ∪ {[ "from" ]}.
Proof. by rewrite dom_union_L, dom_singleton_L. Qed.

(** What the message schema of [app.js] accepts, in terms of the body. *)
Lemma validate_schemaMessage (body : gmap string json) (v : json) :
  Joi.validate App.schemaMessage (body ∪ {[ "from" := v ]}) = true
  ↔ (∃ to text type,
       body !! "to" = Some (JStr to) ∧ to ≠ ""
       ∧ body !! "text" = Some (JStr text) ∧ text ≠ ""
       ∧ body !! "type" = Some (JStr type)
       ∧ (type = "message" ∨ type = "private_message"))
    ∧ dom body ⊆ {[ "from"; "to"; "text"; "type" ]}.
Proof.
  unfold Joi.validate, App.schemaMessage. simpl.
  destruct (lookup_from_is_Some body v) as [w ->].
  rewrite !lookup_with_from by done.
  rewrite dom_with_from, !andb_true_iff, bool_decide_eq_true.
  split.
  - intros [(_ & Hto & Htext & Htype & _) Hdom]. split.
    + destruct (body !! "to") as [[| | |to| |]|]; try discriminate.
      destruct (body !! "text") as [[| | |text| |]|]; try discriminate.
      destruct (body !! "type") as [[| | |type| |]|]; try discriminate.
      exists to, text, type. simpl in *.
      apply negb_true_iff, bool_decide_eq_false in Hto, Htext.
      apply bool_decide_eq_true in Htype.
      repeat split; try done.
      apply elem_of_cons in Htype as [?|Htype]; [by left|].
      apply elem_of_cons in Htype as [?|Htype]; [by right|].
      inversion Htype.
    + subset_from Hdom.
  - intros [(to & text & type & -> & Hto & -> & Htext & -> & Htype) Hdom].
    simpl. rewrite !bool_decide_eq_false_2 by done. simpl.
    split; [|subset_from Hdom].
    repeat split. apply bool_decide_eq_true.
    destruct Htype as [-> | ->]; [by left | right; by left].
Qed.

(** [app.js] answers 422 whenever [type] is missing or is not one of the
    two accepted strings, and stores nothing. *)
Lemma app_post_messages_type (t : Z) (user : option string)
    (body : gmap string json) (s : db) :
  body !! "type" ≠ Some (JStr "message") →
  body !! "type" ≠ Some (JStr "private_message") →
  App.post_messages t user body s = (s, sendStatus 422).
Proof.
  intros Hm Hp. unfold App.post_messages.
  destruct user as [user|]; [|done].
  destruct (findOne_name _ _); [|done].
  destruct (Joi.validate _ _) eqn:Hval; [|done].
  apply validate_schemaMessage in Hval
    as [(to & text & type & _ & _ & _ & _ & Htype & [-> | ->]) _];
    congruence.
Qed.

(** In [app.js] a [from] key of the body changes nothing. *)
Lemma app_post_messages_body_from (t : Z) (user : option string)
    (body : gmap string json) (v : json) (s : db) :
  App.post_messages t user (<[ "from" := v ]> body) s
  = App.post_messages t user body s.
Proof.
  unfold App.post_messages. destruct user as [user|]; [|done].
  destruct (findOne_name _ _); [|done].
  assert (Joi.validate App.schemaMessage
            (<[ "from" := v ]> body ∪ {[ "from" := JStr user ]})
          = Joi.validate App.schemaMessage (body ∪ {[ "from" := JStr user ]}))
    as ->.
  { apply eq_true_iff_eq. rewrite !validate_schemaMessage.
    rewrite !lookup_insert_ne by done. rewrite dom_insert_L.
    split; (intros [? Hdom]; split; [done | subset_from Hdom]). }
  unfold App.sanitizedParams. by rewrite !lookup_insert_ne.
Qed.

(** In [app.js] the stored [from] is the sanitised header. *)
Lemma app_post_messages_from (t : Z) (user : option string)
    (body : gmap string json) (s s' : db) :
  App.post_messages t user body s = (s', sendStatus 201) →
  ∃ u fs, user = Some u
    ∧ messages s' = messages s ++ [Document (next_id s) fs]
    ∧ fs !! "from" = Some (JStr (App.sanitize u)).
Proof.
  unfold App.post_messages. destruct user as [user|]; [|intros [=]].
  destruct (findOne_name _ _); [|intros [=]].
  destruct (Joi.validate _ _); simpl; [|intros [=]].
  destruct (App.sanitizedParams _ _) as [params|] eqn:Hp; [|intros [=]].
  intros [= <-]. exists user. eexists. split; [done|]. split; [done|].
  unfold App.sanitizedParams in Hp.
  destruct (App.sanitize_field (body !! "to")); [|done].
  destruct (App.sanitize_field (body !! "text")); [|done].
  destruct (App.sanitize_field (body !! "type")); [|done].
  simpl in Hp. injection Hp as <-.
  rewrite lookup_insert_ne by done. by rewrite lookup_insert_eq.
Qed.

End post.

(** ** Reading messages *)
Section get.
Import Mongo Http.
Context `{Externals}.

Lemma elem_of_rev {A} (l : list A) (x : A) : x ∈ rev l ↔ x ∈ l.
Proof. rewrite !list_elem_of_In. symmetry. apply in_rev. Qed.


(** On a field that holds a string the query [{field: s}] is string
    equality. *)
Lemma field_eq_string (s' s : string) :
  field_eq (Some (JStr s')) s = true ↔ s' = s.
Proof. simpl. apply bool_decide_eq_true. Qed.

(** [slice(-k).reverse()] is the first [k] of the reversed array. *)
Lemma rev_slice_last {A} (k : Z) (l : list A) :
  rev (Js.slice_last k l) = take (Z.to_nat k) (rev l).
Proof. unfold Js.slice_last. symmetry. apply firstn_rev. Qed.

Lemma app_get_messages_found (user : string) (limit : option string) (s : db) :
  App.sanitize user ∈ name <$> participants s →
  App.get_messages (Some user) limit s
  = let messages := List.filter (App.visible user) (messages s) in
    match limit with
    | None => (s, send_documents (rev messages))
    | Some limit =>
        match Js.parseInt limit with
        | None => (s, sendStatus 422)
        | Some limitValue =>
            if (limitValue <=? 0)%Z then (s, sendStatus 422)
            else (s, send_documents (take (Z.to_nat limitValue) (rev messages)))
        end
    end.
Proof.
  intros [p Hp]%findOne_name_is_Some. unfold App.get_messages.
  rewrite Hp. simpl. destruct limit as [limit|]; [|done].
  destruct (Js.parseInt limit) as [k|]; [|done].
  by rewrite rev_slice_last.
Qed.




(** C10, as the code has it.  [app.js] looks the sanitised header up but
    filters with the header as received: when the lookup succeeds and the
    limit is absent or parses to a positive integer, the request is
    answered with documents visible for the raw header, and a private
    message whose [to] or [from] is the sanitised name is left out unless
    it is addressed to "Todos" or one of its [to], [from] is the raw
    header itself. *)
Theorem C10_raw_header (user : string) (limit : option string) (s : db)
    (d : document) (from to : string) :
  App.sanitize user ∈ name <$> participants s →
  (limit = None
   ∨ ∃ l k, limit = Some l ∧ Js.parseInt l = Some k ∧ (0 < k)%Z) →
  fields d !! "type" = Some (JStr "private_message") →
  fields d !! "from" = Some (JStr from) →
  fields d !! "to" = Some (JStr to) →
  to = App.sanitize user ∨ from = App.sanitize user →
  to ≠ "Todos" → to ≠ user → from ≠ user →
  ∃ docs, App.get_messages (Some user) limit s = (s, send_documents docs)
    ∧ (∀ x, x ∈ docs → x ∈ messages s ∧ App.visible user x = true)
    ∧ d ∉ docs.
Proof.
  intros Hin Hlimit Htype Hfrom Hto _ Htodos Ht Hf.
  assert (App.visible user d = false) as Hd.
  { unfold App.visible. rewrite Htype, Hfrom, Hto. simpl.
    by rewrite !bool_decide_eq_false_2. }
  rewrite app_get_messages_found by done. simpl.
  set (shown := rev (List.filter (App.visible user) (messages s))).
  assert (∀ x, x ∈ shown → x ∈ messages s ∧ App.visible user x = true)
    as Hshown.
  { intros x. unfold shown. by rewrite elem_of_rev, filter_elem_of. }
  destruct Hlimit as [-> | (l & k & -> & -> & Hk)].
  - exists shown. split; [done|]. split; [done|].
    intros [_ Hv]%Hshown. congruence.
  - destruct (Z.leb_spec k 0); [lia|].
    exists (take (Z.to_nat k) shown). split; [done|].
    split.
    + intros x Hx. apply Hshown. by eapply subseteq_take.
    + intros Hx. eapply subseteq_take, Hshown in Hx as [_ Hv]. congruence.
Qed.

End get.

(** ** Editing a message *)
Section put.
Import Mongo Http.
Context `{Externals}.

(** The document [findOne({_id})] returns is the first with that [_id],
    and it is the one [updateOne] rewrites. *)
Lemma findOne_id_split (oid : ObjectId) (ds : list document) (m : document) :
  findOne_id oid ds = Some m →
  ∃ before after,
    ds = before ++ m :: after ∧ _id m = oid
    ∧ findOne_id oid before = None
    ∧ ∀ upd, updateOne_id oid upd ds
             = before ++ Document oid (upd ∪ fields m) :: after.
Proof.
  unfold findOne_id. induction ds as [|d ds IH]; simpl; [intros [=]|].
  case_bool_decide as Hd.
  - intros [= ->]. exists [], ds. simpl. by rewrite Hd.
  - intros (before & after & -> & Hid & Hnone & Hupd)%IH.
    exists (d :: before), after. simpl.
    rewrite bool_decide_eq_false_2 by done.
    repeat split; try done. intros upd. by rewrite Hupd.
Qed.

Lemma owner_check (user : string) (m : document) :
  is_str user (default JNull (fields m !! "from")) = true
  ↔ fields m !! "from" = Some (JStr user).
Proof.
  destruct (fields m !! "from") as [[| | |s| |]|]; simpl;
    try (split; intros [=]; fail).
  rewrite bool_decide_eq_true. split; congruence.
Qed.

Lemma sanitizedParams_valid (name : string) (body : gmap string json)
    (to text type : string) :
  body !! "to" = Some (JStr to) → body !! "text" = Some (JStr text) →
  body !! "type" = Some (JStr type) →
  App.sanitizedParams name body
  = Some {[ "from" := JStr name; "to" := JStr (App.sanitize to);
            "text" := JStr (App.sanitize text);
            "type" := JStr (App.sanitize type) ]}.
Proof. intros Hto Htext Htype. unfold App.sanitizedParams. by rewrite Hto, Htext, Htype. Qed.

(** The handler, once the participant is found and the body is valid. *)
Lemma put_message_valid (id user : string) (body : gmap string json) (s : db)
    (to text type : string) :
  App.sanitize user ∈ name <$> participants s →
  Joi.validate App.schemaMessage (body ∪ {[ "from" := JStr (App.sanitize user) ]})
  = true →
  body !! "to" = Some (JStr to) → body !! "text" = Some (JStr text) →
  body !! "type" = Some (JStr type) →
  App.put_message id (Some user) body s
  = match ObjectId_new id with
    | None => (s, send_error 500)
    | Some oid =>
        match findOne_id oid (messages s) with
        | None => (s, sendStatus 404)
        | Some message =>
            if negb (is_str user (default JNull (fields message !! "from")))
            then (s, sendStatus 401)
            else (Db (participants s)
                     (updateOne_id oid
                        {[ "from" := JStr (App.sanitize user);
                           "to" := JStr (App.sanitize to);
                           "text" := JStr (App.sanitize text);
                           "type" := JStr (App.sanitize type) ]}
                        (messages s))
                     (receitas s) (next_id s), sendStatus 200)
        end
    end.
Proof.
  intros [p Hp]%findOne_name_is_Some Hval Hto Htext Htype.
  unfold App.put_message. rewrite Hp, Hval. simpl.
  by rewrite (sanitizedParams_valid _ _ to text type).
Qed.

(** What PUT /messages/:id does.  A PUT that is not answered 200 leaves
    the store as it was, and an otherwise valid one by a requester whose
    header is not the message's [from] is answered 401.  A PUT answered
    200 rewrites the first message with that [_id], whose [from] is the
    header: [to], [text] and [type] become the sanitised values of the
    body, [from] becomes the sanitised header, every other key, the
    [_id] and every other document stay; so [from] is unchanged whenever
    the header is already in sanitised form.  Such a PUT is answered 200
    when the participant is found, the body is valid and the message is
    found with [from] equal to the header. *)
Lemma put_message_effect (id user : string) (body : gmap string json) (s : db) :
  let r := App.put_message id (Some user) body s in
  (status r.2 ≠ Some 200%Z → r.1 = s)
  ∧ (∀ oid m,
       App.sanitize user ∈ name <$> participants s →
       Joi.validate App.schemaMessage
         (body ∪ {[ "from" := JStr (App.sanitize user) ]}) = true →
       ObjectId_new id = Some oid →
       findOne_id oid (messages s) = Some m →
       (fields m !! "from" ≠ Some (JStr user) → r = (s, sendStatus 401))
       ∧ (fields m !! "from" = Some (JStr user) → status r.2 = Some 200%Z))
  ∧ (status r.2 = Some 200%Z →
     ∃ oid m to text type before after fs',
       ObjectId_new id = Some oid
       ∧ body !! "to" = Some (JStr to) ∧ body !! "text" = Some (JStr text)
       ∧ body !! "type" = Some (JStr type)
       ∧ messages s = before ++ m :: after
       ∧ _id m = oid ∧ findOne_id oid before = None
       ∧ fields m !! "from" = Some (JStr user)
       ∧ r.1 = Db (participants s) (before ++ Document oid fs' :: after)
                  (receitas s) (next_id s)
       ∧ fs' !! "to" = Some (JStr (App.sanitize to))
       ∧ fs' !! "text" = Some (JStr (App.sanitize text))
       ∧ fs' !! "type" = Some (JStr (App.sanitize type))
       ∧ fs' !! "from" = Some (JStr (App.sanitize user))
       ∧ (∀ k, k ∉ ["from"; "to"; "text"; "type"] → fs' !! k = fields m !! k)
       ∧ (App.sanitize user = user → fs' !! "from" = fields m !! "from")).
Proof.
  intros r. split; [|split].
  - subst r. unfold App.put_message.
    repeat (case_match; simpl; try done).
  - intros oid m Hin Hval Hoid Hm.
    pose proof Hval as [(to & text & type & Hto & _ & Htext & _ & Htype & _) _]
      %validate_schemaMessage.
    subst r. rewrite (put_message_valid _ _ _ _ to text type) by done.
    rewrite Hoid, Hm. split.
    + intros Hfrom. rewrite <- owner_check in Hfrom.
      apply not_true_is_false in Hfrom. by rewrite Hfrom.
    + intros Hfrom. rewrite <- owner_check in Hfrom. by rewrite Hfrom.
  - subst r. unfold App.put_message.
    destruct (findOne_name _ _) as [p|] eqn:Hp; [|intros [=]].
    destruct (Joi.validate _ _) eqn:Hval; simpl; [|intros [=]].
    pose proof Hval as [(to & text & type & Hto & _ & Htext & _ & Htype & _) _]
      %validate_schemaMessage.
    rewrite (sanitizedParams_valid _ _ to text type) by done.
    destruct (ObjectId_new id) as [oid|]; [|intros [=]].
    destruct (findOne_id oid (messages s)) as [m|] eqn:Hm; [|intros [=]].
    destruct (is_str user _) eqn:Hown; simpl; [|intros [=]]. intros _.
    apply owner_check in Hown.
    apply findOne_id_split in Hm as (before & after & Hms & Hid & Hnone & Hupd).
    exists oid, m, to, text, type, before, after. eexists.
    rewrite Hupd.
    repeat (split; [done|]).
    repeat (split; [apply lookup_union_Some_l; reflexivity|]).
    split.
    + intros k Hk. apply lookup_union_r.
      rewrite !lookup_insert_ne, lookup_singleton_ne; [done | ..];
        intros <-; apply Hk; repeat constructor.
    + intros Hsan. rewrite Hown, Hsan.
      apply lookup_union_Some_l. reflexivity.
Qed.

End put.

(** ** Recipes *)
Section receitas.
Import Mongo Http.
Context `{Externals}.

(** The query [{field: s}] spelled out. *)
Lemma field_eq_spec (v : option json) (s : string) :
  field_eq v s = true
  ↔ v = Some (JStr s) ∨ ∃ l, v = Some (JArr l) ∧ JStr s ∈ l.
Proof.
  assert (∀ x, is_str s x = true ↔ x = JStr s) as Hstr.
  { intros [| | |s'| |]; simpl; try (split; intros [=]; fail).
    rewrite bool_decide_eq_true. split; congruence. }
  destruct v as [[| | |s'|l|]|]; simpl;
    try (split; [intros [=] | intros [[=] | (l' & [=] & _)]]; fail).
  - rewrite bool_decide_eq_true. split.
    + intros ->. by left.
    + intros [[= ->] | (l & [=] & _)]. done.
  - rewrite existsb_exists. split.
    + intros (x & Hx & ->%Hstr). right. exists l. split; [done|].
      by apply list_elem_of_In.
    + intros [[=] | (l' & [= <-] & Hin)]. exists (JStr s).
      split; [by apply list_elem_of_In | by apply Hstr].
Qed.

(** C9, as the code has it.  DELETE /receitas/muitas/:filtroIngredientes
    always answers 204.  It deletes exactly the recipes the query
    [{ingredientes: filter}] matches: those whose [ingredientes] is the
    string equal to the filter, or an array with that string among its
    elements.  The others stay, in their order and as they were; a recipe
    whose [ingredientes] is a string stays exactly when that string
    differs from the filter (so one that merely contains the filter
    stays); participants and messages are not touched, and nothing
    changes when no recipe matches. *)
Theorem C9_delete_by_ingredientes (filtroIngredientes : string) (s : db) :
  let r := Part000.delete_receitas_muitas filtroIngredientes s in
  let matched (d : document) :=
    fields d !! "ingredientes" = Some (JStr filtroIngredientes)
    ∨ ∃ l, fields d !! "ingredientes" = Some (JArr l)
           ∧ JStr filtroIngredientes ∈ l in
  r.2 = sendStatus 204
  ∧ participants r.1 = participants s ∧ messages r.1 = messages s
  ∧ receitas r.1
    = List.filter
        (λ d, negb (field_eq (fields d !! "ingredientes") filtroIngredientes))
        (receitas s)
  ∧ (∀ d, d ∈ receitas r.1 ↔ d ∈ receitas s ∧ ¬ matched d)
  ∧ (∀ d ingredientes, d ∈ receitas s →
       fields d !! "ingredientes" = Some (JStr ingredientes) →
       (d ∈ receitas r.1 ↔ ingredientes ≠ filtroIngredientes))
  ∧ ((∀ d, d ∈ receitas s → ¬ matched d) → r.1 = s).
Proof.
  intros r matched. subst r. unfold Part000.delete_receitas_muitas,
    Part000.ingredientes_match. simpl.
  assert (∀ d, field_eq (fields d !! "ingredientes") filtroIngredientes = false
               ↔ ¬ matched d) as Hmatched.
  { intros d. unfold matched. rewrite <- field_eq_spec.
    by destruct (field_eq _ _). }
  split; [done|]. split; [done|]. split; [done|]. split; [done|].
  split; [|split].
  - intros d. by rewrite filter_elem_of, negb_true_iff, Hmatched.
  - intros d ingredientes Hd Hing. rewrite filter_elem_of, Hing. simpl.
    rewrite negb_true_iff, bool_decide_eq_false. tauto.
  - intros Hnone. destruct s as [ps ms rs n]. simpl in *. f_equal.
    induction rs as [|d rs IH]; [done|]. simpl.
    rewrite (proj2 (Hmatched d)) by (apply Hnone; left).
    simpl. f_equal. apply IH.
    intros d' Hd'. apply Hnone. by right.
Qed.

End receitas.

(** ** Worked requests *)
Section worked.
Import Mongo Http Reference.
#[local] Existing Instance packages.

Example room_contents :
  participants room
  = [Participant "Ana" 0; Participant "Todos" 0; Participant "Bob" 0;
     Participant "Carla" 0]
  ∧ messages room
    = [Document 0 (joined "Ana"); Document 1 (joined "Todos");
       Document 2 (joined "Bob"); Document 3 (joined "Carla");
       Document 4 (stored "Ana" "Todos" "segredo" "private_message" "00:00:00");
       Document 5
         (stored "Ana" "Bob" "so para o Bob" "private_message" "00:00:00");
       Document 6 (stored "Bob" "Todos" "oi" "message" "00:00:00")].
Proof. split; reflexivity. Qed.


(** In the sibling file a limit that is not a number passes the test on
    its type and the reply holds every visible message; a request with no
    [user] header is answered 409 there, and by no reply in [app.js]. *)
Example part000_limit_nan :
  Part000.get_messages (Some "Carla") (Some "abc") room
  = Part000.get_messages (Some "Carla") None room
  ∧ status (Part000.get_messages (Some "Carla") (Some "abc") room).2
    = Some 200%Z
  ∧ Part000.get_messages None None room
    = (room, send_string 409 "Participant do not exist!")
  ∧ App.get_messages None None room = (room, uncaught).
Proof. repeat split; reflexivity. Qed.

(** Membership in a list given by its elements. *)
Ltac in_list := vm_compute; repeat constructor.



(** C2 at the failing input.  Through the sibling file, Ana posts a body
    with [from: "Bob"]: the message is stored with [from] "Bob", while the
    same body without [from] is stored with [from] "Ana"; [app.js] stores
    "Ana" for both. *)
Theorem C2_body_from_stored :
  Part000.post_messages 0 (Some "Ana") forged_body part000_ana
  = (Db [Participant "Ana" 0]
        [Document 0 (joined "Ana");
         Document 1 (stored "Bob" "Todos" "oi" "message" "00:00:00")] [] 2,
     sendStatus 201)
  ∧ Part000.post_messages 0 (Some "Ana") (message_body "Todos" "oi" "message")
      part000_ana
    = (Db [Participant "Ana" 0]
          [Document 0 (joined "Ana");
           Document 1 (stored "Ana" "Todos" "oi" "message" "00:00:00")] [] 2,
       sendStatus 201)
  ∧ App.post_messages 0 (Some "Ana") forged_body part000_ana
    = App.post_messages 0 (Some "Ana") (message_body "Todos" "oi" "message")
        part000_ana.
Proof. repeat split; reflexivity. Qed.

(** C3, witness: at time 5000 nobody is stale; at time 20000 Ana is. *)
Lemma C3_witness :
  App.removeInactiveParticipants 5000 two_participants = two_participants
  ∧ participants (App.removeInactiveParticipants 20000 two_participants)
    = [Participant "Bob" 15000]
  ∧ messages (App.removeInactiveParticipants 20000 two_participants)
    = [Document 0 (departed "Ana")].
Proof.
  split.
  - apply (C3_presence_sweep 5000 two_participants).
    intros p Hp. apply list_elem_of_In in Hp. simpl in Hp.
    destruct Hp as [<-|[<-|[]]]; simpl; lia.
  - destruct (proj2 (C3_presence_sweep 20000 two_participants))
      as (_ & _ & Hps & Hms & _).
    + exists (Participant "Ana" 0). split; [in_list | simpl; lia].
    + rewrite Hps, Hms. split; reflexivity.
Defined.




(** C5, witness: "Ana" joins [room], where she is, and [empty], twice. *)
Lemma C5_witness :
  App.post_participants 0 0 (join_body "Ana") room = (room, sendStatus 409)
  ∧ Part000.post_participants 0 0 (join_body "Ana") room
    = (room, send_string 409 "Participant already exist!")
  ∧ (∃ s1, App.post_participants 0 0 (join_body "Ana") empty
           = (s1, sendStatus 201)
           ∧ App.post_participants 1 1 (join_body "Ana") s1
             = (s1, sendStatus 409))
  ∧ (∃ s1, Part000.post_participants 0 0 (join_body "Ana") empty
           = (s1, sendStatus 201)
           ∧ Part000.post_participants 1 1 (join_body "Ana") s1
             = (s1, send_string 409 "Participant already exist!")).
Proof.
  assert ("Ana" ≠ "") as Hname by discriminate.
  destruct (C5_join_conflict 0 0 1 1 "Ana" room Hname) as (Happ & Hpart & _).
  destruct (C5_join_conflict 0 0 1 1 "Ana" empty Hname)
    as (_ & _ & Happ2 & Hpart2).
  split; [apply Happ; in_list|].
  split; [apply Hpart; in_list|].
  split; [apply Happ2 | apply Hpart2]; vm_compute; inversion 1.
Defined.

(** C6 at the failing input.  Through the sibling file the join with the
    name "<b>Ana</b>" stores the participant and the status message under
    the name with its markup; the same join through [app.js] stores
    "Ana". *)
Theorem C6_name_not_sanitised :
  Part000.post_participants 0 0 (join_body "<b>Ana</b>") empty
  = (Db [Participant "<b>Ana</b>" 0] [Document 0 (joined "<b>Ana</b>")] [] 1,
     sendStatus 201)
  ∧ App.post_participants 0 0 (join_body "<b>Ana</b>") empty
    = (Db [Participant "Ana" 0] [Document 0 (joined "Ana")] [] 1,
       sendStatus 201).
Proof. split; reflexivity. Qed.

(** The join of "<b>Ana</b>" through [app.js], from the general lemma. *)
Lemma join_stores_ana :
  participants (app_join "<b>Ana</b>" empty) = [Participant "Ana" 0]
  ∧ messages (app_join "<b>Ana</b>" empty) = [Document 0 (joined "Ana")].
Proof.
  destruct (proj1 (join_stores 0 0 (join_body "<b>Ana</b>") empty
                     (app_join "<b>Ana</b>" empty)))
    as (raw & Hraw & Hps & Hms); [reflexivity|].
  vm_compute in Hraw. injection Hraw as <-.
  rewrite Hps, Hms. split; reflexivity.
Defined.

(** C7 at the failing input.  Through the sibling file, Ana posts a
    message of type "status", and one with no type: both are stored and
    answered 201; [app.js] answers 422 to both and stores nothing. *)
Theorem C7_type_not_checked :
  Part000.post_messages 0 (Some "Ana") (message_body "Todos" "oi" "status")
    part000_ana
  = (Db [Participant "Ana" 0]
        [Document 0 (joined "Ana");
         Document 1 (stored "Ana" "Todos" "oi" "status" "00:00:00")] [] 2,
     sendStatus 201)
  ∧ Part000.post_messages 0 (Some "Ana")
      {[ "to" := JStr "Todos"; "text" := JStr "oi" ]} part000_ana
    = (Db [Participant "Ana" 0]
          [Document 0 (joined "Ana");
           Document 1
             {[ "from" := JStr "Ana"; "to" := JStr "Todos";
                "text" := JStr "oi"; "time" := JStr "00:00:00" ]}] [] 2,
       sendStatus 201)
  ∧ App.post_messages 0 (Some "Ana") (message_body "Todos" "oi" "status")
      part000_ana
    = (part000_ana, sendStatus 422)
  ∧ App.post_messages 0 (Some "Ana")
      {[ "to" := JStr "Todos"; "text" := JStr "oi" ]} part000_ana
    = (part000_ana, sendStatus 422).
Proof. repeat split; reflexivity. Qed.


(** C8 at the failing input.  In [mixed] message 1 has [from] "<b>Ana</b>"
    and the header "<b>Ana</b>" is the participant "Ana".  The PUT under
    that header is answered 200 and leaves the message with [from] "Ana";
    the DELETE under the same header, which compares [from] with the
    sanitised name, is answered 401. *)
Theorem C8_put_owner_check :
  messages mixed
  = [Document 0 (joined "<b>Ana</b>");
     Document 1 (stored "<b>Ana</b>" "Todos" "oi" "message" "00:00:00");
     Document 2 (joined "Ana")]
  ∧ App.put_message "000000000000000000000001" (Some "<b>Ana</b>")
      (message_body "Todos" "ola" "message") mixed
    = (Db [Participant "<b>Ana</b>" 0; Participant "Ana" 0]
          [Document 0 (joined "<b>Ana</b>");
           Document 1 (stored "Ana" "Todos" "ola" "message" "00:00:00");
           Document 2 (joined "Ana")] [] 3,
       sendStatus 200)
  ∧ App.delete_message "000000000000000000000001" (Some "<b>Ana</b>") mixed
    = (mixed, sendStatus 401).
Proof. repeat split; reflexivity. Qed.

(** On [room], Carla and then Bob edit Bob's message 6. *)
Lemma put_message_effect_room :
  App.put_message "000000000000000000000006" (Some "Carla")
    (message_body "Todos" "<i>ola</i> " "message") room
  = (room, sendStatus 401)
  ∧ status (App.put_message "000000000000000000000006" (Some "Bob")
              (message_body "Todos" "<i>ola</i> " "message") room).2
    = Some 200%Z
  ∧ messages (App.put_message "000000000000000000000006" (Some "Bob")
                (message_body "Todos" "<i>ola</i> " "message") room).1
    = [Document 0 (joined "Ana"); Document 1 (joined "Todos");
       Document 2 (joined "Bob"); Document 3 (joined "Carla");
       Document 4 (stored "Ana" "Todos" "segredo" "private_message" "00:00:00");
       Document 5
         (stored "Ana" "Bob" "so para o Bob" "private_message" "00:00:00");
       Document 6 (stored "Bob" "Todos" "ola" "message" "00:00:00")].
Proof.
  pose (body := message_body "Todos" "<i>ola</i> " "message").
  pose (m := Document 6 (stored "Bob" "Todos" "oi" "message" "00:00:00")).
  destruct (put_message_effect "000000000000000000000006" "Carla" body room)
    as (_ & Hcarla & _).
  destruct (put_message_effect "000000000000000000000006" "Bob" body room)
    as (_ & Hbob & Hdone).
  split; [|split].
  - apply (Hcarla 6%N m); [in_list | reflexivity.. | discriminate].
  - apply (Hbob 6%N m); reflexivity || in_list.
  - destruct Hdone
      as (oid & m' & to & text & type & before & after & fs' & Hoid & Hto
          & Htext & Htype & Hms & Hid & Hnone & Hfrom & Hr & _).
    { apply (Hbob 6%N m); reflexivity || in_list. }
    reflexivity.
Defined.

(** C9, counterexample.  In [pantry] recipe 1 has the array
    ["ovo", "leite"] as [ingredientes], which is not equal to the string
    "leite", and the filter "leite" deletes it. *)
Lemma C9_counterexample :
  receitas pantry
  = [Document 0 (recipe "omelete" "bater" "ovo");
     Document 1
       {[ "titulo" := JStr "bolo"; "preparo" := JStr "assar";
          "ingredientes" := JArr [JStr "ovo"; JStr "leite"] ]};
     Document 2 (recipe "gemada" "mexer" "ovo")]
  ∧ Part000.delete_receitas_muitas "leite" pantry
    = (Db [] []
          [Document 0 (recipe "omelete" "bater" "ovo");
           Document 2 (recipe "gemada" "mexer" "ovo")] 3,
       sendStatus 204).
Proof. split; reflexivity. Qed.

(** C9, witness: on [kitchen], the filter "ovo" removes the two recipes
    made of "ovo" and keeps the one made of "ovo, leite"; the filter
    "leite" removes nothing; both are answered 204.  On [pantry] the
    filter "leite" removes the recipe made of ["ovo", "leite"]. *)
Lemma C9_witness :
  Part000.delete_receitas_muitas "ovo" kitchen
  = (Db [] [] [Document 1 (recipe "bolo" "assar" "ovo, leite")] 3,
     sendStatus 204)
  ∧ Part000.delete_receitas_muitas "leite" kitchen = (kitchen, sendStatus 204)
  ∧ Document 1
      {[ "titulo" := JStr "bolo"; "preparo" := JStr "assar";
         "ingredientes" := JArr [JStr "ovo"; JStr "leite"] ]}
    ∉ receitas (Part000.delete_receitas_muitas "leite" pantry).1.
Proof.
  destruct (C9_delete_by_ingredientes "ovo" kitchen)
    as (Hreply & _ & _ & Hrest & _).
  destruct (C9_delete_by_ingredientes "leite" kitchen)
    as (Hreply' & _ & _ & _ & _ & _ & Hnone).
  destruct (C9_delete_by_ingredientes "leite" pantry)
    as (_ & _ & _ & _ & Hiff & _).
  split; [|split].
  - apply injective_projections; [|exact Hreply].
    unfold Part000.delete_receitas_muitas in *. simpl in *. f_equal.
  - apply injective_projections; [|exact Hreply'].
    apply Hnone. intros d Hd. apply list_elem_of_In in Hd. simpl in Hd.
    destruct Hd as [<-|[<-|[<-|[]]]];
      (intros [Hs | (l & Hl & _)];
       [vm_compute in Hs; discriminate Hs | vm_compute in Hl; discriminate Hl]).
  - intros [_ Hnot]%Hiff. apply Hnot. right.
    exists [JStr "ovo"; JStr "leite"]. split; [reflexivity|].
    right. left.
Defined.

(** C10, counterexample.  The header "<b>Ana</b>" differs from its
    sanitised form "Ana", the participant "Ana" exists, and the private
    message whose [from] is "Ana" is in the reply, since it is addressed to
    "Todos". *)
Lemma C10_counterexample :
  App.sanitize "<b>Ana</b>" = "Ana"
  ∧ participants ana_alone = [Participant "Ana" 0]
  ∧ App.get_messages (Some "<b>Ana</b>") None ana_alone
    = (ana_alone,
       send_documents
         [Document 1
            (stored "Ana" "Todos" "segredo" "private_message" "00:00:00");
          Document 0 (joined "Ana")]).
Proof. repeat split; reflexivity. Qed.

(** C10, witness: on [room] the header "<b>Bob</b>" does not get the
    private message Ana wrote to Bob. *)
Lemma C10_witness :
  ∃ docs,
    App.get_messages (Some "<b>Bob</b>") None room = (room, send_documents docs)
    ∧ (∀ x, x ∈ docs → x ∈ messages room ∧ App.visible "<b>Bob</b>" x = true)
    ∧ Document 5
        (stored "Ana" "Bob" "so para o Bob" "private_message" "00:00:00")
      ∉ docs.
Proof.
  apply (C10_raw_header "<b>Bob</b>" None room _ "Ana" "Bob");
    [in_list | by left | reflexivity.. | by left | | |]; discriminate.
Defined.

End worked.

(** * Further properties of the handlers *)

(** ** Heartbeat and sweep *)
Section presence.
Import Mongo Http.
Context `{Externals}.

Lemma updateOne_lastStatus_spec (n : string) (t : Z) (ps : list participant) :
  ((n ∉ name <$> ps) ∧ updateOne_lastStatus n t ps = (ps, 0))
  ∨ (∃ before p after,
       ps = before ++ p :: after ∧ name p = n ∧ (n ∉ name <$> before)
       ∧ updateOne_lastStatus n t ps
         = (before ++ Participant n t :: after, 1)).
Proof.
  induction ps as [|q ps IH]; simpl.
  - left. split; [|done]. inversion 1.
  - case_bool_decide as Hq.
    + right. exists [], q, ps. rewrite Hq. repeat split; try done. inversion 1.
    + destruct IH as [[Hn ->] | (before & p & after & -> & Hp & Hn & ->)].
      * left. split; [|done]. apply not_elem_of_cons. done.
      * right. exists (q :: before), p, after. repeat split; try done.
        apply not_elem_of_cons. done.
Qed.

(** The sweep as one equation, whether or not somebody is stale. *)
Lemma sweep_eq (now : Z) (s : db) :
  App.removeInactiveParticipants now s
  = Db (List.filter (λ p, negb (App.inactive now p)) (participants s))
       (messages s
        ++ imap (λ i p,
                   Document (next_id s + N.of_nat i)%N
                     (App.status_message (name p) "sai da sala..." now))
                (List.filter (App.inactive now) (participants s)))
       (receitas s)
       (next_id s
        + N.of_nat (length (List.filter (App.inactive now) (participants s))))%N.
Proof.
  unfold App.removeInactiveParticipants.
  destruct (List.filter (App.inactive now) (participants s)) as [|q l] eqn:Hl.
  - simpl. rewrite app_nil_r, N.add_0_r.
    assert (List.filter (λ p, negb (App.inactive now p)) (participants s)
            = participants s) as ->; [|by destruct s].
    pose proof (proj1 (filter_nil_none _ _) Hl) as Hnone.
    clear Hl. induction (participants s) as [|p ps IH]; [done|]. simpl.
    rewrite (Hnone p) by left. simpl. f_equal. apply IH.
    intros x Hx. apply Hnone. by right.
  - change (length (q :: l) <=? 0)%nat with false. cbv iota.
    by rewrite foldl_insert_message.
Qed.

Lemma sweep_participants (now : Z) (s : db) (p : participant) :
  p ∈ participants (App.removeInactiveParticipants now s)
  ↔ p ∈ participants s ∧ (now - 10000 ≤ lastStatus p)%Z.
Proof.
  rewrite sweep_eq. simpl. rewrite filter_elem_of. unfold App.inactive.
  rewrite negb_true_iff, Z.ltb_ge. done.
Qed.

(** X1. POST /status answers 404 or 200.  It answers 404, and changes
    nothing, exactly when the header is absent or its sanitised form names
    no participant; otherwise it answers 200 and sets [lastStatus] of the
    first participant of that name to the time of the request, every other
    participant, the order and the other collections being kept. *)
Theorem X1_heartbeat (t : Z) (user : option string) (s : db) :
  let r := App.post_status t user s in
  (r = (s, sendStatus 404)
   ↔ ∀ u, user = Some u → App.sanitize u ∉ name <$> participants s)
  ∧ (r ≠ (s, sendStatus 404) →
     ∃ u before p after,
       user = Some u ∧ participants s = before ++ p :: after
       ∧ name p = App.sanitize u ∧ (App.sanitize u ∉ name <$> before)
       ∧ r = (Db (before ++ Participant (App.sanitize u) t :: after)
                 (messages s) (receitas s) (next_id s),
              sendStatus 200)).
Proof.
  intros r. subst r. unfold App.post_status.
  destruct user as [u|].
  - destruct (updateOne_lastStatus_spec (App.sanitize u) t (participants s))
      as [[Hn ->] | (before & p & after & Hps & Hp & Hn & ->)]; simpl.
    + split; [|done]. split; [|done]. by intros _ ? [= <-].
    + split.
      * split; [intros [=]|]. intros Hall. exfalso. apply (Hall u eq_refl).
        rewrite Hps, fmap_app, elem_of_app. right. rewrite fmap_cons, Hp. left.
      * intros _. by exists u, before, p, after.
  - split; [|done]. split; [|done]. by intros _ u [=].
Qed.

(** X2. A heartbeat at time [t] protects from every sweep run before
    [t + 10000]: the request is answered 200 and the name is still a
    participant after the sweep. *)
Theorem X2_heartbeat_survives (t now : Z) (user : string) (s : db) :
  App.sanitize user ∈ name <$> participants s →
  (now - 10000 ≤ t)%Z →
  (App.post_status t (Some user) s).2 = sendStatus 200
  ∧ App.sanitize user
    ∈ name <$> participants
                 (App.removeInactiveParticipants now
                    (App.post_status t (Some user) s).1).
Proof.
  intros Hin Hnow. unfold App.post_status.
  destruct (updateOne_lastStatus_spec (App.sanitize user) t (participants s))
    as [[Hn _] | (before & p & after & Hps & Hp & Hn & ->)]; [done|].
  simpl. split; [done|].
  apply list_elem_of_fmap. exists (Participant (App.sanitize user) t).
  split; [done|]. apply sweep_participants. simpl. split; [|done].
  rewrite elem_of_app. right. left.
Qed.

(** X3. After a sweep at time [now], a sweep at any time [now' <= now]
    finds nobody stale and changes nothing; in particular the sweep is
    idempotent. *)
Theorem X3_sweep_again (now now' : Z) (s : db) :
  (now' ≤ now)%Z →
  App.removeInactiveParticipants now' (App.removeInactiveParticipants now s)
  = App.removeInactiveParticipants now s.
Proof.
  intros Hle. set (s' := App.removeInactiveParticipants now s).
  unfold App.removeInactiveParticipants at 1.
  assert (List.filter (App.inactive now') (participants s') = []) as ->; [|done].
  apply filter_nil_none. intros p [_ Hp]%sweep_participants.
  unfold App.inactive. apply Z.ltb_ge. lia.
Qed.

(** X4. A participant whose every record of that name is stale is gone
    after the sweep: a message "sai da sala..." from the name is stored,
    and the requests of that user to read, post and send a heartbeat are
    answered 409, 422 and 404 and change nothing. *)
Theorem X4_evicted (now t : Z) (user : string) (limit : option string)
    (body : gmap string json) (s : db) :
  App.sanitize user ∈ name <$> participants s →
  (∀ p, p ∈ participants s → name p = App.sanitize user →
        (lastStatus p < now - 10000)%Z) →
  let s' := App.removeInactiveParticipants now s in
  (App.sanitize user ∉ name <$> participants s')
  ∧ (∃ d, d ∈ messages s'
          ∧ fields d
            = {[ "from" := JStr (App.sanitize user); "to" := JStr "Todos";
                 "text" := JStr "sai da sala..."; "type" := JStr "status";
                 "time" := JStr (dayjs_format now) ]})
  ∧ App.get_messages (Some user) limit s' = (s', sendStatus 409)
  ∧ App.post_messages t (Some user) body s' = (s', sendStatus 422)
  ∧ App.post_status t (Some user) s' = (s', sendStatus 404).
Proof.
  intros Hin Hstale s'.
  assert (App.sanitize user ∉ name <$> participants s') as Hout.
  { intros (p & Hp & [Hps Hfresh]%sweep_participants)%list_elem_of_fmap.
    specialize (Hstale p Hps (eq_sym Hp)). lia. }
  split; [done|]. split; [|split; [|split]].
  - apply list_elem_of_fmap in Hin as (p & Hp & Hps).
    assert (p ∈ List.filter (App.inactive now) (participants s)) as Hsnap.
    { apply filter_elem_of. split; [done|]. apply Z.ltb_lt. by apply Hstale. }
    apply list_elem_of_lookup in Hsnap as [i Hi].
    exists (Document (next_id s + N.of_nat i)%N
              (App.status_message (name p) "sai da sala..." now)).
    split; [|by rewrite Hp].
    subst s'. rewrite sweep_eq. simpl. rewrite elem_of_app. right.
    apply list_elem_of_lookup. exists i. by rewrite list_lookup_imap, Hi.
  - unfold App.get_messages.
    by rewrite (proj2 (findOne_name_None _ _) Hout).
  - unfold App.post_messages.
    by rewrite (proj2 (findOne_name_None _ _) Hout).
  - unfold App.post_status.
    destruct (updateOne_lastStatus_spec (App.sanitize user) t (participants s'))
      as [[_ ->] | (before & p & after & Hps & Hp & _)]; [done|].
    exfalso. apply Hout. rewrite Hps, fmap_app, elem_of_app. right.
    rewrite fmap_cons, Hp. left.
Qed.

End presence.

(** ** The directory of participants *)
Section directory.
Import Mongo Http.
Context `{Externals}.

(** A join with a valid, free name, in [app.js]. *)
Lemma app_join_free (t1 t2 : Z) (raw : string) (s : db) :
  raw ≠ "" → App.sanitize raw ∉ name <$> participants s →
  App.post_participants t1 t2 {[ "name" := JStr raw ]} s
  = (insert_message
       (App.status_message (App.sanitize raw) "entra na sala..." t2)
       (insert_participant (Participant (App.sanitize raw) t1) s),
     sendStatus 201).
Proof.
  intros Hraw Hfree%findOne_name_None. unfold App.post_participants.
  rewrite (proj2 (validate_schemaParticipant _)) by (by exists raw).
  rewrite lookup_singleton_eq. simpl. by rewrite Hfree.
Qed.

(** A run of joins under valid, distinct and free names, each join with
    its own two clock readings. *)
Lemma joins_fold (joins : list (string * (Z * Z))) (s : db) :
  (∀ j, j ∈ joins → j.1 ≠ "") →
  NoDup (App.sanitize <$> joins.*1) →
  (∀ j, j ∈ joins → App.sanitize j.1 ∉ name <$> participants s) →
  let s' :=
    foldl (λ acc j,
             (App.post_participants j.2.1 j.2.2 {[ "name" := JStr j.1 ]}
                acc).1)
          s joins in
  participants s'
  = participants s ++ ((λ j, Participant (App.sanitize j.1) j.2.1) <$> joins)
  ∧ fields <$> messages s'
    = (fields <$> messages s)
      ++ ((λ j, App.status_message (App.sanitize j.1) "entra na sala..." j.2.2)
            <$> joins).
Proof.
  revert s. induction joins as [|[raw [t1 t2]] joins IH];
    intros s Hvalid Hdup Hfree s'.
  - subst s'. simpl. by rewrite !app_nil_r.
  - subst s'. simpl foldl.
    rewrite app_join_free;
      [|apply (Hvalid (raw, (t1, t2))); left
       |apply (Hfree (raw, (t1, t2))); left].
    simpl fst. rewrite !fmap_cons in Hdup. simpl in Hdup.
    apply NoDup_cons in Hdup as [Hraw Hdup].
    set (s1 := insert_message
                 (App.status_message (App.sanitize raw) "entra na sala..." t2)
                 (insert_participant (Participant (App.sanitize raw) t1) s)).
    assert (participants s1
            = participants s ++ [Participant (App.sanitize raw) t1]) as Hs1
      by done.
    assert (messages s1
            = messages s
              ++ [Document (next_id s)
                    (App.status_message (App.sanitize raw)
                       "entra na sala..." t2)]) as Hm1 by done.
    destruct (IH s1) as (Hps & Hms).
    + intros j Hj. apply Hvalid. by right.
    + exact Hdup.
    + intros j Hj. rewrite Hs1, fmap_app, elem_of_app.
      intros [Hin | Hin].
      * by apply (Hfree j); [right|].
      * apply list_elem_of_singleton in Hin.
        apply Hraw. simpl in Hin. rewrite <- Hin.
        apply list_elem_of_fmap_2. by apply list_elem_of_fmap_2.
    + split.
      * rewrite Hps, Hs1, <- app_assoc. done.
      * rewrite Hms, Hm1, fmap_app, <- app_assoc. done.
Qed.

(** X6. Joining one after the other under names that are valid, distinct
    once sanitised and not taken, each join with its own clock readings:
    every participant is appended in the order of the joins with the
    first reading of its join as [lastStatus], each with one message
    "entra na sala..." carrying the second reading as time, and GET
    /participants then lists them after those that were there. *)
Theorem X6_joins (joins : list (string * (Z * Z))) (s : db) :
  (∀ j, j ∈ joins → j.1 ≠ "") →
  NoDup (App.sanitize <$> joins.*1) →
  (∀ j, j ∈ joins → App.sanitize j.1 ∉ name <$> participants s) →
  let s' :=
    foldl (λ acc j,
             (App.post_participants j.2.1 j.2.2 {[ "name" := JStr j.1 ]}
                acc).1)
          s joins in
  App.get_participants s'
  = (s', send_participants
           (participants s
            ++ ((λ j, Participant (App.sanitize j.1) j.2.1) <$> joins)))
  ∧ fields <$> messages s'
    = (fields <$> messages s)
      ++ ((λ j, {[ "from" := JStr (App.sanitize j.1); "to" := JStr "Todos";
                   "text" := JStr "entra na sala...";
                   "type" := JStr "status";
                   "time" := JStr (dayjs_format j.2.2) ]} : gmap string json)
            <$> joins).
Proof.
  intros Hvalid Hdup Hfree s'.
  destruct (joins_fold joins s Hvalid Hdup Hfree) as [Hps Hms].
  fold s' in Hps, Hms. split; [|exact Hms].
  unfold App.get_participants. by rewrite Hps.
Qed.

(** X8. A join answered 201 is announced to everybody: the next GET
    /messages without limit of any requester who is found starts with the
    message of the join; the new participant is one such requester. *)
Theorem X8_join_announced (t1 t2 : Z) (body : gmap string json) (s s' : db)
    (user : string) :
  App.post_participants t1 t2 body s = (s', sendStatus 201) →
  App.sanitize user ∈ name <$> participants s' →
  ∃ raw,
    body !! "name" = Some (JStr raw)
    ∧ App.sanitize raw ∈ name <$> participants s'
    ∧ App.get_messages (Some user) None s'
      = (s', send_documents
               (Document (next_id s)
                  {[ "from" := JStr (App.sanitize raw); "to" := JStr "Todos";
                     "text" := JStr "entra na sala..."; "type" := JStr "status";
                     "time" := JStr (dayjs_format t2) ]}
                :: rev (List.filter (App.visible user) (messages s)))).
Proof.
  intros Hjoin Hin. rewrite app_get_messages_found by done. simpl.
  unfold App.post_participants in Hjoin.
  destruct (Joi.validate App.schemaParticipant body) eqn:Hval;
    simpl in Hjoin; [|discriminate].
  apply validate_schemaParticipant in Hval as (raw & _ & ->).
  rewrite lookup_singleton_eq in *. simpl in Hjoin.
  destruct (findOne_name _ _); [discriminate|]. injection Hjoin as <-.
  exists raw. split; [done|]. split.
  - simpl. rewrite fmap_app, elem_of_app. right. left.
  - simpl. rewrite List.filter_app, rev_app_distr. done.
Qed.

End directory.

(** ** Posting, deleting and editing messages *)
Section messages_more.
Import Mongo Http.
Context `{Externals}.

Lemma findOne_id_app (oid : ObjectId) (before l : list document) :
  findOne_id oid before = None →
  findOne_id oid (before ++ l) = findOne_id oid l
  ∧ deleteOne_id oid (before ++ l) = before ++ deleteOne_id oid l
  ∧ ∀ upd, updateOne_id oid upd (before ++ l)
           = before ++ updateOne_id oid upd l.
Proof.
  unfold findOne_id. induction before as [|d before IH]; simpl; [done|].
  case_bool_decide; [done|]. intros (Hf & Hd & Hu)%IH.
  split; [done|]. split; [by rewrite Hd|]. intros upd. by rewrite Hu.
Qed.

Lemma findOne_id_None (oid : ObjectId) (ds : list document) :
  findOne_id oid ds = None ↔ ∀ d, d ∈ ds → _id d ≠ oid.
Proof.
  unfold findOne_id. induction ds as [|d ds IH]; simpl.
  - split; [intros _ d Hd; inversion Hd | done].
  - case_bool_decide as Hd.
    + split; [done|]. intros Hall. exfalso. by apply (Hall d); [left|].
    + rewrite IH. split.
      * intros Hall x [->|Hx]%elem_of_cons; auto.
      * intros Hall x Hx. apply Hall. by right.
Qed.

Lemma findOne_id_delete (oid : ObjectId) (ds : list document) (m : document) :
  findOne_id oid ds = Some m →
  ∃ before after,
    ds = before ++ m :: after ∧ _id m = oid
    ∧ findOne_id oid before = None
    ∧ deleteOne_id oid ds = before ++ after.
Proof.
  intros (before & after & -> & Hid & Hnone & _)%findOne_id_split.
  exists before, after. repeat split; try done.
  destruct (findOne_id_app oid before (m :: after) Hnone) as (_ & -> & _).
  simpl. by rewrite bool_decide_eq_true_2.
Qed.

(** X7. POST /messages of [app.js] answers 201 or 422 and nothing else.
    It answers 201 exactly when the header is present, its sanitised form
    names a participant, [to] and [text] are non-empty strings, [type] is
    "message" or "private_message" and the body has no key besides these
    and [from]; it then appends one message of the sanitised header and
    the sanitised fields, and otherwise changes nothing. *)
Theorem X7_post_messages (t : Z) (user : option string)
    (body : gmap string json) (s : db) :
  let r := App.post_messages t user body s in
  (∀ u to text type,
     user = Some u → App.sanitize u ∈ name <$> participants s →
     body !! "to" = Some (JStr to) → to ≠ "" →
     body !! "text" = Some (JStr text) → text ≠ "" →
     body !! "type" = Some (JStr type) →
     type = "message" ∨ type = "private_message" →
     dom body ⊆ {[ "from"; "to"; "text"; "type" ]} →
     r = (Db (participants s)
             (messages s
              ++ [Document (next_id s)
                    {[ "from" := JStr (App.sanitize u);
                       "to" := JStr (App.sanitize to);
                       "text" := JStr (App.sanitize text);
                       "type" := JStr (App.sanitize type);
                       "time" := JStr (dayjs_format t) ]}])
             (receitas s) (N.succ (next_id s)),
          sendStatus 201))
  ∧ (r.2 = sendStatus 201 →
     ∃ u to text type,
       user = Some u ∧ App.sanitize u ∈ name <$> participants s
       ∧ body !! "to" = Some (JStr to) ∧ to ≠ ""
       ∧ body !! "text" = Some (JStr text) ∧ text ≠ ""
       ∧ body !! "type" = Some (JStr type)
       ∧ (type = "message" ∨ type = "private_message")
       ∧ dom body ⊆ {[ "from"; "to"; "text"; "type" ]})
  ∧ (r.2 ≠ sendStatus 201 → r = (s, sendStatus 422)).
Proof.
  intros r. subst r. unfold App.post_messages. split; [|split].
  - intros u to text type -> [p Hp]%findOne_name_is_Some
      Hto Hto' Htext Htext' Htype Htype' Hdom.
    rewrite Hp.
    rewrite (proj2 (validate_schemaMessage body (JStr u))); simpl.
    + rewrite (sanitizedParams_valid _ _ to text type) by done.
      reflexivity.
    + split; [|done]. by exists to, text, type.
  - destruct user as [u|]; [|intros [=]].
    destruct (findOne_name _ _) as [p|] eqn:Hp; [|intros [=]].
    destruct (Joi.validate _ _) eqn:Hval; simpl; [|intros [=]]. intros _.
    apply validate_schemaMessage in Hval
      as [(to & text & type & ? & ? & ? & ? & ? & ?) Hdom].
    exists u, to, text, type. repeat split; try done.
    apply findOne_name_is_Some. by rewrite Hp.
  - destruct user as [u|]; [|done].
    destruct (findOne_name _ _) as [p|]; [|done].
    destruct (Joi.validate _ _) eqn:Hval; simpl; [|done].
    apply validate_schemaMessage in Hval
      as [(to & text & type & Hto & _ & Htext & _ & Htype & _) _].
    rewrite (sanitizedParams_valid _ _ to text type) by done. simpl. done.
Qed.

(** X9. DELETE /messages/:id asks for no participant.  It answers 500
    when the id is no ObjectId, 404 when no message has it, 401 when the
    [from] of the first message with it is not the sanitised header; in
    these cases nothing changes.  Otherwise it answers 200 and removes
    that message and no other. *)
Theorem X9_delete_message (id user : string) (s : db) :
  let r := App.delete_message id (Some user) s in
  (ObjectId_new id = None → r = (s, send_error 500))
  ∧ (∀ oid, ObjectId_new id = Some oid →
       findOne_id oid (messages s) = None → r = (s, sendStatus 404))
  ∧ (∀ oid m, ObjectId_new id = Some oid →
       findOne_id oid (messages s) = Some m →
       (fields m !! "from" ≠ Some (JStr (App.sanitize user)) →
        r = (s, sendStatus 401))
       ∧ (fields m !! "from" = Some (JStr (App.sanitize user)) →
          ∃ before after,
            messages s = before ++ m :: after
            ∧ findOne_id oid before = None
            ∧ r = (Db (participants s) (before ++ after) (receitas s)
                      (next_id s), sendStatus 200))).
Proof.
  intros r. subst r. unfold App.delete_message. split; [|split].
  - by intros ->.
  - by intros oid -> ->.
  - intros oid m -> Hm. rewrite Hm. split; intros Hfrom.
    + rewrite <- owner_check in Hfrom. apply not_true_is_false in Hfrom.
      by rewrite Hfrom.
    + rewrite <- owner_check in Hfrom. rewrite Hfrom. simpl.
      apply findOne_id_delete in Hm as (before & after & Hms & _ & Hnone & ->).
      by exists before, after.
Qed.

(** A POST answered 201 appended one message of the sanitised header. *)
Lemma app_post_201 (t : Z) (user : string) (body : gmap string json)
    (s s1 : db) :
  App.post_messages t (Some user) body s = (s1, sendStatus 201) →
  App.sanitize user ∈ name <$> participants s
  ∧ ∃ fs, s1 = insert_message fs s
          ∧ fs !! "from" = Some (JStr (App.sanitize user)).
Proof.
  unfold App.post_messages.
  destruct (findOne_name _ _) as [p|] eqn:Hp; [|intros [=]].
  destruct (Joi.validate _ _) eqn:Hval; simpl; [|intros [=]].
  apply validate_schemaMessage in Hval
    as [(to & text & type & Hto & _ & Htext & _ & Htype & _) _].
  rewrite (sanitizedParams_valid _ _ to text type) by done.
  intros [= <-]. split; [apply findOne_name_is_Some; by rewrite Hp|].
  eexists. split; [done|]. reflexivity.
Qed.

Lemma findOne_id_inserted (fs : gmap string json) (s : db) :
  (∀ d, d ∈ messages s → _id d ≠ next_id s) →
  findOne_id (next_id s) (messages (insert_message fs s))
  = Some (Document (next_id s) fs)
  ∧ deleteOne_id (next_id s) (messages (insert_message fs s)) = messages s.
Proof.
  intros Hfresh%findOne_id_None. simpl.
  destruct (findOne_id_app _ _ [Document (next_id s) fs] Hfresh)
    as (-> & -> & _).
  unfold findOne_id. simpl. rewrite bool_decide_eq_true_2 by done.
  by rewrite app_nil_r.
Qed.

(** X10. The author can take a message back: when no stored message has
    the [_id] the next insertion gets, a POST answered 201 followed by the
    DELETE of that [_id] under a header with the same sanitised form is
    answered 200 and leaves the messages as they were before the POST. *)
Theorem X10_post_then_delete (t : Z) (user user' id : string)
    (body : gmap string json) (s s1 : db) :
  App.post_messages t (Some user) body s = (s1, sendStatus 201) →
  (∀ d, d ∈ messages s → _id d ≠ next_id s) →
  ObjectId_new id = Some (next_id s) →
  App.sanitize user' = App.sanitize user →
  App.delete_message id (Some user') s1
  = (Db (participants s) (messages s) (receitas s) (N.succ (next_id s)),
     sendStatus 200).
Proof.
  intros (_ & fs & -> & Hfrom)%app_post_201 Hfresh Hid Hsame.
  destruct (findOne_id_inserted fs s Hfresh) as [Hfind Hdel].
  unfold App.delete_message. rewrite Hid, Hfind, Hsame.
  rewrite (proj2 (owner_check _ (Document (next_id s) fs))) by done.
  simpl negb. cbv iota. by rewrite Hdel.
Qed.

(** X11. The author can edit a message just posted only under a header in
    sanitised form: after a POST answered 201, a PUT with a valid body on
    the new [_id] under the same header is answered 200 when the header is
    its own sanitised form, and 401, changing nothing, when it is not. *)
Theorem X11_post_then_put (t : Z) (user id : string)
    (body body' : gmap string json) (s s1 : db) :
  App.post_messages t (Some user) body s = (s1, sendStatus 201) →
  (∀ d, d ∈ messages s → _id d ≠ next_id s) →
  ObjectId_new id = Some (next_id s) →
  Joi.validate App.schemaMessage
    (body' ∪ {[ "from" := JStr (App.sanitize user) ]}) = true →
  (App.sanitize user = user →
   status (App.put_message id (Some user) body' s1).2 = Some 200%Z)
  ∧ (App.sanitize user ≠ user →
     App.put_message id (Some user) body' s1 = (s1, sendStatus 401)).
Proof.
  intros (Hin & fs & -> & Hfrom)%app_post_201 Hfresh Hid Hval.
  destruct (findOne_id_inserted fs s Hfresh) as [Hfind _].
  pose proof Hval as [(to & text & type & Hto & _ & Htext & _ & Htype & _) _]
    %validate_schemaMessage.
  rewrite (put_message_valid _ _ _ _ to text type) by done.
  rewrite Hid, Hfind. split; intros Hsan.
  - rewrite (proj2 (owner_check _ (Document (next_id s) fs))); [done|].
    simpl. by rewrite Hfrom, Hsan.
  - assert (is_str user (default JNull (fields (Document (next_id s) fs) !! "from"))
            = false) as ->; [|done].
    apply not_true_is_false. rewrite owner_check. simpl. rewrite Hfrom.
    congruence.
Qed.

(** X12. Sending the same PUT twice leaves the store as sending it once
    does. *)
Theorem X12_put_twice (id : string) (user : option string)
    (body : gmap string json) (s : db) :
  (App.put_message id user body (App.put_message id user body s).1).1
  = (App.put_message id user body s).1.
Proof.
  set (r1 := App.put_message id user body s).
  assert (r1.1 = s
          ∨ ∃ u to text type oid m before after params,
              user = Some u
              ∧ App.sanitize u ∈ name <$> participants s
              ∧ Joi.validate App.schemaMessage
                  (body ∪ {[ "from" := JStr (App.sanitize u) ]}) = true
              ∧ body !! "to" = Some (JStr to)
              ∧ body !! "text" = Some (JStr text)
              ∧ body !! "type" = Some (JStr type)
              ∧ ObjectId_new id = Some oid
              ∧ findOne_id oid before = None
              ∧ params
                = {[ "from" := JStr (App.sanitize u);
                     "to" := JStr (App.sanitize to);
                     "text" := JStr (App.sanitize text);
                     "type" := JStr (App.sanitize type) ]}
              ∧ r1.1 = Db (participants s)
                          (before ++ Document oid (params ∪ fields m) :: after)
                          (receitas s) (next_id s)) as [Hsame | Hdone].
  { subst r1. unfold App.put_message.
    destruct user as [u|]; [|by left].
    destruct (findOne_name _ _) as [p|] eqn:Hp; [|by left].
    destruct (Joi.validate _ _) eqn:Hval; simpl; [|by left].
    pose proof Hval as [(to & text & type & Hto & _ & Htext & _ & Htype & _) _]
      %validate_schemaMessage.
    rewrite (sanitizedParams_valid _ _ to text type) by done.
    destruct (ObjectId_new id) as [oid|] eqn:Hid; [|by left].
    destruct (findOne_id oid (messages s)) as [m|] eqn:Hm; [|by left].
    destruct (is_str u _); simpl; [|by left]. right.
    apply findOne_id_split in Hm as (before & after & _ & _ & Hnone & ->).
    exists u, to, text, type, oid, m, before, after. eexists.
    repeat (split; [done|]). split; [|done].
    apply findOne_name_is_Some. by rewrite Hp. }
  - rewrite Hsame. exact Hsame.
  - destruct Hdone as (u & to & text & type & oid & m & before & after & params
                       & -> & Hin & Hval & Hto & Htext & Htype & Hid & Hnone
                       & Hparams & ->).
    rewrite (put_message_valid _ _ _ _ to text type) by done.
    rewrite Hid. simpl messages.
    destruct (findOne_id_app oid before
                (Document oid (params ∪ fields m) :: after) Hnone)
      as (-> & _ & Hupd).
    unfold findOne_id at 1. simpl List.find.
    rewrite bool_decide_eq_true_2 by done.
    destruct (is_str u _); simpl; [|done].
    rewrite <- Hparams, Hupd. simpl. rewrite bool_decide_eq_true_2 by done.
    simpl. by rewrite (assoc_L (∪)), (idemp_L (∪)).
Qed.

(** X13. With distinct [_id]s in the collection, a DELETE answered 200
    and sent again is answered 404 and changes nothing more. *)
Theorem X13_delete_twice (id : string) (user : option string) (s s1 : db) :
  NoDup (_id <$> messages s) →
  App.delete_message id user s = (s1, sendStatus 200) →
  App.delete_message id user s1 = (s1, sendStatus 404).
Proof.
  intros Hdup. unfold App.delete_message.
  destruct user as [u|]; [|intros [=]].
  destruct (ObjectId_new id) as [oid|]; [|intros [=]].
  destruct (findOne_id oid (messages s)) as [m|] eqn:Hm; [|intros [=]].
  destruct (is_str _ _); simpl; [|intros [=]]. intros [= <-]. simpl.
  apply findOne_id_delete in Hm as (before & after & Hms & Hid & Hnone & ->).
  assert (findOne_id oid (before ++ after) = None) as ->; [|done].
  apply findOne_id_None. intros d [Hd|Hd]%elem_of_app.
  - by apply (proj1 (findOne_id_None _ _) Hnone).
  - rewrite Hms, fmap_app, fmap_cons in Hdup.
    apply NoDup_app in Hdup as (_ & _ & [Hm _]%NoDup_cons).
    intros Heq. apply Hm. rewrite Hid, <- Heq. by apply list_elem_of_fmap_2.
Qed.

Ltac keys_from Hdom :=
  let x := fresh "x" in
  intros x; specialize (Hdom x); set_unfold; naive_solver.

(** What the message schema of the sibling file accepts. *)
Lemma validate_part000_schemaMessage (body : gmap string json) (v : json) :
  Joi.validate Part000.schemaMessage (<[ "from" := v ]> body) = true
  ↔ (∃ to text,
       body !! "to" = Some (JStr to) ∧ to ≠ ""
       ∧ body !! "text" = Some (JStr text) ∧ text ≠ "")
    ∧ dom body ⊆ {[ "to"; "text"; "type"; "from" ]}.
Proof.
  unfold Joi.validate, Part000.schemaMessage. simpl.
  rewrite lookup_insert_eq, !lookup_insert_ne by done.
  rewrite dom_insert_L, !andb_true_iff, bool_decide_eq_true.
  split.
  - intros [(Hto & Htext & _) Hdom]. split; [|keys_from Hdom].
    destruct (body !! "to") as [[| | |to| |]|]; try discriminate.
    destruct (body !! "text") as [[| | |text| |]|]; try discriminate.
    exists to, text. simpl in *.
    apply negb_true_iff, bool_decide_eq_false in Hto, Htext. done.
  - intros [(to & text & -> & Hto & -> & Htext) Hdom].
    simpl. rewrite !bool_decide_eq_false_2 by done. simpl.
    split; [done | keys_from Hdom].
Qed.

(** X17. POST /messages of the sibling file answers 409 to a requester
    who is no participant, whatever the body; for a participant it answers
    201 exactly when [to] and [text] are non-empty strings and the body has
    no key besides [to], [text], [type] and [from], and 422 otherwise.  The
    message stored is the body itself with the time added, and with the
    header as [from] only when the body has none. *)
Theorem X17_part000_post_messages (t : Z) (user : option string)
    (body : gmap string json) (s : db) :
  let r := Part000.post_messages t user body s in
  let valid :=
    (∃ to text,
       body !! "to" = Some (JStr to) ∧ to ≠ ""
       ∧ body !! "text" = Some (JStr text) ∧ text ≠ "")
    ∧ dom body ⊆ {[ "to"; "text"; "type"; "from" ]} in
  ((∀ u, user = Some u → u ∉ name <$> participants s) →
   r = (s, send_string 409 "Participant do not exist!"))
  ∧ (∀ u, user = Some u → u ∈ name <$> participants s →
       (valid →
        r = (insert_message
               (<[ "time" := JStr (dayjs_format t) ]>
                  (body ∪ {[ "from" := JStr u ]})) s,
             sendStatus 201)
        ∧ ∀ fs, messages r.1 = messages s ++ [Document (next_id s) fs] →
                fs !! "from" = Some (default (JStr u) (body !! "from"))
                ∧ fs !! "type" = body !! "type"
                ∧ fs !! "to" = body !! "to" ∧ fs !! "text" = body !! "text")
       ∧ (¬ valid → r = (s, send_details 422))).
Proof.
  intros r valid. subst r. unfold Part000.post_messages. split.
  - intros Hout. destruct user as [u|]; [|done]. simpl.
    by rewrite (proj2 (findOne_name_None _ _) (Hout u eq_refl)).
  - intros u -> [p Hp]%findOne_name_is_Some. simpl. rewrite Hp.
    destruct (Joi.validate _ _) eqn:Hval; simpl.
    + apply validate_part000_schemaMessage in Hval. split; [|done].
      intros _. split; [done|]. simpl. intros fs [= <-]%app_inv_head.
      rewrite !lookup_insert_ne by done.
      rewrite lookup_union, lookup_singleton_eq.
      rewrite !lookup_with_from by done.
      repeat split. by destruct (body !! "from").
    + split; [|done]. intros Hvalid. subst valid.
      apply (validate_part000_schemaMessage body (JStr u)) in Hvalid.
      congruence.
Qed.

End messages_more.

(** ** Recipes by id *)
Section receitas_more.
Import Mongo Http.
Context `{Externals}.

(** X14. DELETE /receitas/:id answers 500 when the id is no ObjectId and
    404 when no recipe has it, changing nothing; otherwise it answers 204
    and removes the first recipe with that [_id] and no other. *)
Theorem X14_delete_receita (id : string) (s : db) :
  let r := Part000.delete_receita id s in
  (ObjectId_new id = None → r = (s, send_error 500))
  ∧ (∀ oid, ObjectId_new id = Some oid →
       findOne_id oid (receitas s) = None →
       r.1 = s ∧ status r.2 = Some 404%Z)
  ∧ (∀ oid m, ObjectId_new id = Some oid →
       findOne_id oid (receitas s) = Some m →
       ∃ before after,
         receitas s = before ++ m :: after
         ∧ findOne_id oid before = None
         ∧ r = (Db (participants s) (messages s) (before ++ after) (next_id s),
                send_string 204 "Receita deletada com sucesso!")).
Proof.
  intros r. subst r. unfold Part000.delete_receita. split; [|split].
  - by intros ->.
  - by intros oid -> ->.
  - intros oid m -> Hm. rewrite Hm.
    apply findOne_id_delete in Hm as (before & after & Hrs & _ & Hnone & ->).
    by exists before, after.
Qed.

(** The fields PUT /receitas/:id writes. *)
Lemma put_receita_fields (body fs : gmap string json) (k : string) :
  ({[ "titulo" := Part000.body_value body "titulo";
      "preparo" := Part000.body_value body "preparo";
      "ingredientes" := Part000.body_value body "ingredientes" ]} ∪ fs) !! k
  = if bool_decide (k ∈ ["titulo"; "preparo"; "ingredientes"])
    then Some (default JNull (body !! k))
    else fs !! k.
Proof.
  case_bool_decide as Hk.
  - apply lookup_union_Some_l.
    apply elem_of_cons in Hk as [->|Hk]; [done|].
    apply elem_of_cons in Hk as [->|Hk]; [done|].
    apply elem_of_cons in Hk as [->|Hk]; [done|]. inversion Hk.
  - apply lookup_union_r.
    rewrite !lookup_insert_ne, lookup_singleton_ne; [done | ..];
      intros <-; apply Hk; repeat constructor.
Qed.

(** X15. PUT /receitas/:id answers 500 when the id is no ObjectId and 404
    when no recipe has it, changing nothing; otherwise it answers 200 and
    overwrites [titulo], [preparo] and [ingredientes] of the first recipe
    with that [_id] by the values of the body, whatever their type, a key
    the body lacks being stored as null; the other keys of the recipe and
    the other recipes stay. *)
Theorem X15_put_receita (id : string) (body : gmap string json) (s : db) :
  let r := Part000.put_receita id body s in
  (ObjectId_new id = None → r = (s, send_error 500))
  ∧ (∀ oid, ObjectId_new id = Some oid →
       findOne_id oid (receitas s) = None →
       r.1 = s ∧ status r.2 = Some 404%Z)
  ∧ (∀ oid m, ObjectId_new id = Some oid →
       findOne_id oid (receitas s) = Some m →
       ∃ before after fs',
         receitas s = before ++ m :: after
         ∧ findOne_id oid before = None
         ∧ r = (Db (participants s) (messages s)
                   (before ++ Document oid fs' :: after) (next_id s),
                send_string 200 "Receita atualizada!")
         ∧ (∀ k, k ∈ ["titulo"; "preparo"; "ingredientes"] →
                 fs' !! k = Some (default JNull (body !! k)))
         ∧ (∀ k, k ∉ ["titulo"; "preparo"; "ingredientes"] →
                 fs' !! k = fields m !! k)).
Proof.
  intros r. subst r. unfold Part000.put_receita. split; [|split].
  - by intros ->.
  - by intros oid -> ->.
  - intros oid m -> Hm. rewrite Hm.
    apply findOne_id_split in Hm as (before & after & Hrs & _ & Hnone & ->).
    exists before, after. eexists. repeat (split; [done|]). split.
    + intros k Hk. rewrite put_receita_fields.
      by rewrite bool_decide_eq_true_2.
    + intros k Hk. rewrite put_receita_fields.
      by rewrite bool_decide_eq_false_2.
Qed.

(** X16. After a PUT /receitas/:id answered 200, what DELETE
    /receitas/muitas does to the recipe depends on the body of the PUT
    alone: when the body had no [ingredientes] no filter removes the
    recipe, and when it had the string [g] the recipe is removed by the
    filter [g] and kept by every other filter. *)
Theorem X16_put_then_delete_muitas (id filtro : string)
    (body : gmap string json) (s : db) (oid : ObjectId) (m : document) :
  ObjectId_new id = Some oid →
  findOne_id oid (receitas s) = Some m →
  ∃ d,
    _id d = oid ∧ d ∈ receitas (Part000.put_receita id body s).1
    ∧ (body !! "ingredientes" = None →
       d ∈ receitas (Part000.delete_receitas_muitas filtro
                       (Part000.put_receita id body s).1).1)
    ∧ (∀ g, body !! "ingredientes" = Some (JStr g) →
         (d ∈ receitas (Part000.delete_receitas_muitas filtro
                          (Part000.put_receita id body s).1).1
          ↔ g ≠ filtro)).
Proof.
  intros Hid Hm. unfold Part000.put_receita. rewrite Hid, Hm. simpl.
  apply findOne_id_split in Hm as (before & after & Hrs & _ & Hnone & ->).
  exists (Document oid
            ({[ "titulo" := Part000.body_value body "titulo";
                "preparo" := Part000.body_value body "preparo";
                "ingredientes" := Part000.body_value body "ingredientes" ]}
             ∪ fields m)).
  split; [reflexivity|].
  assert (∀ (x : document) l1 l2, x ∈ l1 ++ x :: l2) as Hmid.
  { intros x l1 l2. apply elem_of_app. right. left. }
  split; [apply Hmid|]. unfold Part000.ingredientes_match. split.
  - intros Hnone'. apply filter_elem_of. split; [apply Hmid|]. simpl.
    rewrite put_receita_fields. simpl. by rewrite Hnone'.
  - intros g Hg. rewrite filter_elem_of. simpl.
    rewrite put_receita_fields. simpl. rewrite Hg. simpl.
    rewrite negb_true_iff, bool_decide_eq_false. split; [tauto|].
    intros Hne. split; [apply Hmid | done].
Qed.

End receitas_more.

(** ** Who sees a posted message, and which joins are refused *)
Section audience.
Import Mongo Http.
Context `{Externals}.

(** X18. After a POST answered 201, the GET /messages without limit of
    any requester who is found is the reply it would have been before,
    preceded by the new message when the requester may see it; that is
    when the sanitised [type] is "message", or the sanitised [to] is
    "Todos", or the sanitised [type] is "private_message" and the requester's
    header is the sanitised [to] or the sanitised header of the author. *)
Theorem X18_post_then_get (t : Z) (user v : string) (body : gmap string json)
    (s s1 : db) :
  App.post_messages t (Some user) body s = (s1, sendStatus 201) →
  App.sanitize v ∈ name <$> participants s →
  ∃ d to type,
    body !! "to" = Some (JStr to) ∧ body !! "type" = Some (JStr type)
    ∧ messages s1 = messages s ++ [d]
    ∧ (App.visible v d = true
       ↔ App.sanitize type = "message" ∨ App.sanitize to = "Todos"
         ∨ (App.sanitize type = "private_message"
            ∧ (App.sanitize to = v ∨ App.sanitize user = v)))
    ∧ App.get_messages (Some v) None s1
      = (s1, send_documents
               ((if App.visible v d then [d] else [])
                ++ rev (List.filter (App.visible v) (messages s)))).
Proof.
  intros Hpost Hin. unfold App.post_messages in Hpost.
  destruct (findOne_name _ _) as [p|]; [|discriminate].
  destruct (Joi.validate _ _) eqn:Hval; simpl in Hpost; [|discriminate].
  apply validate_schemaMessage in Hval
    as [(to & text & type & Hto & _ & Htext & _ & Htype & _) _].
  rewrite (sanitizedParams_valid _ _ to text type) in Hpost by done.
  injection Hpost as <-.
  eexists. exists to, type. split; [done|]. split; [done|].
  split; [reflexivity|]. split.
  - unfold App.visible. simpl.
    rewrite !orb_true_iff, andb_true_iff, orb_true_iff.
    change (field_eq (_ !! "type") "message")
      with (bool_decide (App.sanitize type = "message")).
    change (field_eq (_ !! "to") "Todos")
      with (bool_decide (App.sanitize to = "Todos")).
    change (field_eq (_ !! "type") "private_message")
      with (bool_decide (App.sanitize type = "private_message")).
    change (field_eq (_ !! "to") v)
      with (bool_decide (App.sanitize to = v)).
    change (field_eq (_ !! "from") v)
      with (bool_decide (App.sanitize user = v)).
    rewrite !bool_decide_eq_true. tauto.
  - rewrite app_get_messages_found by done. simpl.
    rewrite List.filter_app, rev_app_distr. simpl.
    by destruct (App.visible v _).
Qed.

(** X19. POST /participants of [app.js] answers 422, changing nothing,
    exactly when the body is not [{name: raw}] with [raw] a non-empty
    string.  A name that is not empty but is sanitised to the empty string
    (white space, or markup alone) is accepted: when no participant has the
    empty name, the join is answered 201 and stores a participant whose
    name is empty. *)
Theorem X19_join_validation (t1 t2 : Z) (body : gmap string json) (s : db) :
  let r := App.post_participants t1 t2 body s in
  (r = (s, sendStatus 422)
   ↔ ¬ ∃ raw, raw ≠ "" ∧ body = {[ "name" := JStr raw ]})
  ∧ (∀ raw, body = {[ "name" := JStr raw ]} → raw ≠ "" →
       App.sanitize raw = "" → "" ∉ name <$> participants s →
       r.2 = sendStatus 201
       ∧ participants r.1 = participants s ++ [Participant "" t1]).
Proof.
  intros r. subst r. split.
  - unfold App.post_participants.
    destruct (Joi.validate App.schemaParticipant body) eqn:Hval; simpl.
    + pose proof (proj1 (validate_schemaParticipant body) Hval)
        as (raw & Hraw & ->).
      rewrite lookup_singleton_eq. simpl.
      split; [|intros Hno; exfalso; apply Hno; by exists raw].
      by destruct (findOne_name _ _).
    + split; [|done]. intros _ Hex%validate_schemaParticipant. congruence.
  - intros raw -> Hraw Hempty Hfree.
    rewrite app_join_free by (done || by rewrite Hempty).
    simpl. by rewrite Hempty.
Qed.

End audience.

(** ** Worked requests for the further properties *)
Section worked_more.
Import Mongo Http Reference.
#[local] Existing Instance packages.

Ltac in_list := vm_compute; repeat constructor.

(** Every element of a list given by its elements. *)
Ltac each_of Hd :=
  apply list_elem_of_In in Hd; vm_compute in Hd;
  repeat (let E := fresh "E" in
          destruct Hd as [E|Hd]; [try discriminate E; try subst|]);
  try (destruct Hd).

(** X1, witness: heartbeats of Bob and of a stranger. *)
Lemma X1_witness :
  App.post_status 30000 (Some " <i>Bob</i>") two_participants
  = (Db [Participant "Ana" 0; Participant "Bob" 30000] [] [] 0,
     sendStatus 200)
  ∧ App.post_status 30000 (Some "Zed") two_participants
    = (two_participants, sendStatus 404).
Proof.
  split.
  - destruct (proj2 (X1_heartbeat 30000 (Some " <i>Bob</i>") two_participants))
      as (u & before & p & after & [= <-] & Hps & Hp & Hn & Hr).
    { intros Heq. apply (f_equal snd) in Heq. vm_compute in Heq.
      discriminate Heq. }
    rewrite Hr. clear Hr.
    destruct before as [|q before]; injection Hps as <- Hps.
    { vm_compute in Hp. discriminate Hp. }
    destruct before as [|q before]; injection Hps as <- Hps.
    { rewrite <- Hps. reflexivity. }
    destruct before; discriminate Hps.
  - apply (X1_heartbeat 30000 (Some "Zed") two_participants).
    intros u [= <-] Hin. each_of Hin.
Defined.

(** X2, witness: Ana's heartbeat at 15000 and the sweep at 20000. *)
Lemma X2_witness :
  (App.post_status 15000 (Some "Ana") two_participants).2 = sendStatus 200
  ∧ "Ana" ∈ name <$> participants
                       (App.removeInactiveParticipants 20000
                          (App.post_status 15000 (Some "Ana")
                             two_participants).1).
Proof.
  assert (App.sanitize "Ana" ∈ name <$> participants two_participants) as Hin
    by in_list.
  assert (20000 - 10000 ≤ 15000)%Z as Hle by lia.
  exact (X2_heartbeat_survives 15000 20000 "Ana" two_participants Hin Hle).
Defined.

(** X3, witness: a sweep at 10000 after the sweep at 20000. *)
Lemma X3_witness :
  App.removeInactiveParticipants 10000
    (App.removeInactiveParticipants 20000 two_participants)
  = App.removeInactiveParticipants 20000 two_participants.
Proof. apply X3_sweep_again. lia. Defined.

(** X4, witness: Ana after the sweep at 20000. *)
Lemma X4_witness :
  App.get_messages (Some "Ana") None
    (App.removeInactiveParticipants 20000 two_participants)
  = (App.removeInactiveParticipants 20000 two_participants, sendStatus 409)
  ∧ App.post_status 20001 (Some "Ana")
      (App.removeInactiveParticipants 20000 two_participants)
    = (App.removeInactiveParticipants 20000 two_participants, sendStatus 404).
Proof.
  destruct (X4_evicted 20000 20001 "Ana" None ∅ two_participants)
    as (_ & _ & Hget & _ & Hstatus).
  - in_list.
  - intros p Hp Hname.
    each_of Hp; [simpl; lia | vm_compute in Hname; discriminate Hname].
  - split; [exact Hget | exact Hstatus].
Defined.

Ltac decide_it := apply (bool_decide_unpack _); vm_compute; exact I.

(** X6, witness: "Ana" joins the empty store at times 1 and 2, then
    " <b>Bob</b> " at times 3 and 4. *)
Lemma X6_witness :
  (App.get_participants
     (foldl (λ acc j,
               (App.post_participants j.2.1 j.2.2 {[ "name" := JStr j.1 ]}
                  acc).1)
            empty [("Ana", (1, 2)%Z); (" <b>Bob</b> ", (3000, 4000)%Z)])).2
  = send_participants [Participant "Ana" 1; Participant "Bob" 3000]
  ∧ fields
      <$> messages
            (foldl (λ acc j,
                      (App.post_participants j.2.1 j.2.2
                         {[ "name" := JStr j.1 ]} acc).1)
                   empty [("Ana", (1, 2)%Z); (" <b>Bob</b> ", (3000, 4000)%Z)])
    = [joined "Ana";
       stored "Bob" "Todos" "entra na sala..." "status" "00:00:04"].
Proof.
  destruct (X6_joins [("Ana", (1, 2)%Z); (" <b>Bob</b> ", (3000, 4000)%Z)]
              empty) as [Hget Hms].
  - intros j Hj. each_of Hj; discriminate.
  - decide_it.
  - intros j Hj Hin. vm_compute in Hin. inversion Hin.
  - rewrite Hget, Hms. split; reflexivity.
Defined.

(** X7, witness: Carla writes to Bob in [room], then with an empty text. *)
Lemma X7_witness :
  App.post_messages 0 (Some "Carla")
    (message_body "Bob" "oi Bob" "private_message") room
  = (Db (participants room)
        (messages room
         ++ [Document 7
               (stored "Carla" "Bob" "oi Bob" "private_message" "00:00:00")])
        [] 8,
     sendStatus 201)
  ∧ App.post_messages 0 (Some "Carla") (message_body "Bob" "" "message") room
    = (room, sendStatus 422).
Proof.
  split.
  - destruct (X7_post_messages 0 (Some "Carla")
                (message_body "Bob" "oi Bob" "private_message") room)
      as (Hok & _ & _).
    rewrite (Hok "Carla" "Bob" "oi Bob" "private_message");
      [reflexivity | reflexivity | in_list | reflexivity | discriminate
      | reflexivity | discriminate | reflexivity | by right | decide_it].
  - destruct (X7_post_messages 0 (Some "Carla")
                (message_body "Bob" "" "message") room)
      as (_ & _ & Hbad).
    apply Hbad. intros Heq. vm_compute in Heq. discriminate Heq.
Defined.

(** X8, witness: Dora joins [room] and Ana reads. *)
Lemma X8_witness :
  App.get_messages (Some "Ana") None (app_join "Dora" room)
  = (app_join "Dora" room,
     send_documents
       (Document 7 (joined "Dora")
        :: rev (List.filter (App.visible "Ana") (messages room)))).
Proof.
  destruct (X8_join_announced 0 0 (join_body "Dora") room
              (app_join "Dora" room) "Ana")
    as (raw & Hraw & _ & Hget); [reflexivity | in_list |].
  vm_compute in Hraw. injection Hraw as <-. exact Hget.
Defined.

(** X9, witness: DELETE requests on [room]. *)
Lemma X9_witness :
  App.delete_message "zz" (Some "Bob") room = (room, send_error 500)
  ∧ App.delete_message "000000000000000000000009" (Some "Bob") room
    = (room, sendStatus 404)
  ∧ App.delete_message "000000000000000000000006" (Some "Carla") room
    = (room, sendStatus 401)
  ∧ ∃ before after,
      messages room
      = before
        ++ Document 6 (stored "Bob" "Todos" "oi" "message" "00:00:00") :: after
      ∧ findOne_id 6%N before = None
      ∧ App.delete_message "000000000000000000000006" (Some " Bob") room
        = (Db (participants room) (before ++ after) (receitas room)
              (next_id room), sendStatus 200).
Proof.
  pose (m := Document 6 (stored "Bob" "Todos" "oi" "message" "00:00:00")).
  split; [|split; [|split]].
  - apply (X9_delete_message "zz" "Bob" room). reflexivity.
  - apply (proj1 (proj2 (X9_delete_message "000000000000000000000009" "Bob"
                           room)) 9%N); reflexivity.
  - apply (proj2 (proj2 (X9_delete_message "000000000000000000000006" "Carla"
                           room)) 6%N m); [reflexivity.. | discriminate].
  - apply (proj2 (proj2 (X9_delete_message "000000000000000000000006" " Bob"
                           room)) 6%N m); reflexivity.
Defined.

(** X10, witness: Bob posts in [room] and takes the message back under the
    header "<b>Bob</b>". *)
Lemma X10_witness :
  App.delete_message "000000000000000000000007" (Some "<b>Bob</b>")
    (app_post "Bob" (message_body "Todos" "tchau" "message") room)
  = (Db (participants room) (messages room) [] 8, sendStatus 200).
Proof.
  apply (X10_post_then_delete 0 "Bob" "<b>Bob</b>" _
           (message_body "Todos" "tchau" "message") room);
    [reflexivity | | reflexivity | reflexivity].
  intros d Hd. each_of Hd; by vm_compute.
Defined.

(** X11, witness: Bob edits what he just posted; under the header
    "<b>Bob</b>" the post is accepted and the edit is refused. *)
Lemma X11_witness :
  status (App.put_message "000000000000000000000007" (Some "Bob")
            (message_body "Todos" "ola" "message")
            (app_post "Bob" (message_body "Todos" "tchau" "message") room)).2
  = Some 200%Z
  ∧ App.put_message "000000000000000000000007" (Some "<b>Bob</b>")
      (message_body "Todos" "ola" "message")
      (app_post "<b>Bob</b>" (message_body "Todos" "tchau" "message") room)
    = (app_post "<b>Bob</b>" (message_body "Todos" "tchau" "message") room,
       sendStatus 401).
Proof.
  assert (∀ d, d ∈ messages room → _id d ≠ next_id room) as Hfresh.
  { intros d Hd. each_of Hd; by vm_compute. }
  split.
  - apply (X11_post_then_put 0 "Bob" _
             (message_body "Todos" "tchau" "message")
             (message_body "Todos" "ola" "message") room);
      [reflexivity | exact Hfresh | reflexivity | reflexivity | reflexivity].
  - apply (X11_post_then_put 0 "<b>Bob</b>" _
             (message_body "Todos" "tchau" "message")
             (message_body "Todos" "ola" "message") room);
      [reflexivity | exact Hfresh | reflexivity | reflexivity | ].
    intros Heq. vm_compute in Heq. discriminate Heq.
Defined.

(** X13, witness: Bob deletes message 6 of [room] twice. *)
Lemma X13_witness :
  App.delete_message "000000000000000000000006" (Some "Bob")
    (App.delete_message "000000000000000000000006" (Some "Bob") room).1
  = ((App.delete_message "000000000000000000000006" (Some "Bob") room).1,
     sendStatus 404).
Proof.
  apply (X13_delete_twice _ _ room); [decide_it | reflexivity].
Defined.

(** X14, witness: DELETE /receitas/:id on [kitchen]. *)
Lemma X14_witness :
  Part000.delete_receita "zz" kitchen = (kitchen, send_error 500)
  ∧ (Part000.delete_receita "000000000000000000000007" kitchen).1 = kitchen
  ∧ status (Part000.delete_receita "000000000000000000000007" kitchen).2
    = Some 404%Z
  ∧ ∃ before after,
      receitas kitchen
      = before ++ Document 1 (recipe "bolo" "assar" "ovo, leite") :: after
      ∧ findOne_id 1%N before = None
      ∧ Part000.delete_receita "000000000000000000000001" kitchen
        = (Db [] [] (before ++ after) 3,
           send_string 204 "Receita deletada com sucesso!").
Proof.
  split; [|split; [|split]].
  - apply (X14_delete_receita "zz" kitchen). reflexivity.
  - apply (proj1 (proj2 (X14_delete_receita "000000000000000000000007"
                           kitchen)) 7%N); reflexivity.
  - apply (proj1 (proj2 (X14_delete_receita "000000000000000000000007"
                           kitchen)) 7%N); reflexivity.
  - apply (proj2 (proj2 (X14_delete_receita "000000000000000000000001"
                           kitchen)) 1%N
             (Document 1 (recipe "bolo" "assar" "ovo, leite"))); reflexivity.
Defined.

(** X15, witness: PUT /receitas/:id on [kitchen] with a body that has a
    title and nothing else. *)
Lemma X15_witness :
  Part000.put_receita "zz" {[ "titulo" := JStr "pudim" ]} kitchen
  = (kitchen, send_error 500)
  ∧ (Part000.put_receita "000000000000000000000007"
       {[ "titulo" := JStr "pudim" ]} kitchen).1 = kitchen
  ∧ Part000.put_receita "000000000000000000000001"
      {[ "titulo" := JStr "pudim" ]} kitchen
    = (Db [] []
          [Document 0 (recipe "omelete" "bater" "ovo");
           Document 1
             {[ "titulo" := JStr "pudim"; "preparo" := JNull;
                "ingredientes" := JNull ]};
           Document 2 (recipe "gemada" "mexer" "ovo")] 3,
       send_string 200 "Receita atualizada!").
Proof.
  split; [|split].
  - apply (X15_put_receita "zz" _ kitchen). reflexivity.
  - apply (proj1 (proj2 (X15_put_receita "000000000000000000000007" _
                           kitchen)) 7%N); reflexivity.
  - destruct (proj2 (proj2 (X15_put_receita "000000000000000000000001"
                              {[ "titulo" := JStr "pudim" ]} kitchen)) 1%N
                (Document 1 (recipe "bolo" "assar" "ovo, leite")))
      as (before & after & fs' & _ & _ & _ & _ & _); reflexivity.
Defined.

(** X16, witness: recipe 1 of [kitchen] after a PUT without
    [ingredientes], and after a PUT with "ovo". *)
Lemma X16_witness :
  (∃ d, _id d = 1%N
        ∧ d ∈ receitas (Part000.delete_receitas_muitas "ovo, leite"
                          (Part000.put_receita "000000000000000000000001"
                             {[ "titulo" := JStr "pudim" ]} kitchen).1).1)
  ∧ (∃ d, _id d = 1%N
          ∧ d ∉ receitas (Part000.delete_receitas_muitas "ovo"
                            (Part000.put_receita "000000000000000000000001"
                               {[ "ingredientes" := JStr "ovo" ]} kitchen).1).1).
Proof.
  pose (m := Document 1 (recipe "bolo" "assar" "ovo, leite")).
  split.
  - destruct (X16_put_then_delete_muitas "000000000000000000000001"
                "ovo, leite" {[ "titulo" := JStr "pudim" ]} kitchen 1%N m)
      as (d & Hid & _ & Hkeep & _); [reflexivity..|].
    exists d. split; [done|]. apply Hkeep. reflexivity.
  - destruct (X16_put_then_delete_muitas "000000000000000000000001"
                "ovo" {[ "ingredientes" := JStr "ovo" ]} kitchen 1%N m)
      as (d & Hid & _ & _ & Hstr); [reflexivity..|].
    exists d. split; [done|]. intros Hin.
    by apply (Hstr "ovo") in Hin.
Defined.

(** X17, witness: the sibling file, with Ana alone: a stranger, a valid
    body with a [type] of its own, and a body without [text]. *)
Lemma X17_witness :
  Part000.post_messages 0 (Some "Zed") ∅ part000_ana
  = (part000_ana, send_string 409 "Participant do not exist!")
  ∧ Part000.post_messages 0 (Some "Ana") (message_body "Bob" "oi" "aviso")
      part000_ana
    = (insert_message (stored "Ana" "Bob" "oi" "aviso" "00:00:00") part000_ana,
       sendStatus 201)
  ∧ Part000.post_messages 0 (Some "Ana") {[ "to" := JStr "Bob" ]} part000_ana
    = (part000_ana, send_details 422).
Proof.
  split; [|split].
  - apply (X17_part000_post_messages 0 (Some "Zed") ∅ part000_ana).
    intros u [= <-] Hin. each_of Hin.
  - destruct (proj2 (X17_part000_post_messages 0 (Some "Ana")
                       (message_body "Bob" "oi" "aviso") part000_ana)
                "Ana" eq_refl) as [Hok _]; [in_list|].
    destruct Hok as [-> _]; [|reflexivity].
    split; [|decide_it]. exists "Bob", "oi". repeat split; discriminate.
  - destruct (proj2 (X17_part000_post_messages 0 (Some "Ana")
                       {[ "to" := JStr "Bob" ]} part000_ana)
                "Ana" eq_refl) as [_ Hbad]; [in_list|].
    apply Hbad. intros [(to & text & _ & _ & Htext & _) _].
    vm_compute in Htext. discriminate Htext.
Defined.

(** X18, witness: Ana writes privately to Bob in [room]; Carla's reply is
    what it was. *)
Lemma X18_witness :
  App.get_messages (Some "Carla") None
    (app_post "Ana" (message_body "Bob" "psiu" "private_message") room)
  = (app_post "Ana" (message_body "Bob" "psiu" "private_message") room,
     send_documents (rev (List.filter (App.visible "Carla") (messages room)))).
Proof.
  destruct (X18_post_then_get 0 "Ana" "Carla"
              (message_body "Bob" "psiu" "private_message") room
              (app_post "Ana" (message_body "Bob" "psiu" "private_message")
                 room))
    as (d & to & type & Hto & Htype & Hms & Hvis & Hget);
    [reflexivity | in_list |].
  vm_compute in Hto, Htype. injection Hto as <-. injection Htype as <-.
  assert (App.visible "Carla" d = false) as Hd.
  { apply not_true_is_false. rewrite Hvis. vm_compute.
    intros [Hx | [Hx | [_ [Hx | Hx]]]]; discriminate Hx. }
  rewrite Hget, Hd. reflexivity.
Defined.

(** X19, witness: on the empty store, a body without name is refused and
    a name of three spaces is stored as the empty name. *)
Lemma X19_witness :
  App.post_participants 0 0 ∅ empty = (empty, sendStatus 422)
  ∧ (App.post_participants 0 0 (join_body "   ") empty).2 = sendStatus 201
  ∧ participants (App.post_participants 0 0 (join_body "   ") empty).1
    = [Participant "" 0].
Proof.
  split.
  - apply (X19_join_validation 0 0 ∅ empty).
    intros (raw & _ & Hbody). apply (f_equal (lookup "name")) in Hbody.
    rewrite lookup_singleton_eq in Hbody. discriminate Hbody.
  - apply (proj2 (X19_join_validation 0 0 (join_body "   ") empty) "   ");
      [reflexivity | discriminate | reflexivity | inversion 1].
Defined.

End worked_more.
